(** * The ONNX weather-advisor model builder

    A shallow embedding of [apps/backend/scripts/create-onnx-model.py]:
    the protobuf messages the script assembles, the [onnx.helper]
    constructors it calls, the graph it builds, and the [main] procedure
    that validates and saves it. *)

From Stdlib Require Import ZArith QArith Reals Qreals Lra Lia.
From Stdlib Require Import Ascii String.
From stdpp Require Import gmap strings list.

Open Scope string_scope.
Open Scope list_scope.
Open Scope Z_scope.

(** ** Exceptions *)

(** The Python exceptions that can surface in the script.  Every
    constructor except [ValueError] and [ValidationError] is a subclass
    of [OSError]. *)
Inductive exn : Type :=
  | ValueError (msg : string)
  | ValidationError (msg : string)
  | FileExistsError (path : string)
  | FileNotFoundError (path : string)
  | NotADirectoryError (path : string)
  | IsADirectoryError (path : string)
  | RecursionError.

Definition is_OSError (e : exn) : bool :=
  match e with
  | FileExistsError _ | FileNotFoundError _
  | NotADirectoryError _ | IsADirectoryError _ => true
  | _ => false
  end.

Definition is_FileExistsError (e : exn) : bool :=
  match e with FileExistsError _ => true | _ => false end.

(** A computation that returns or raises. *)
Inductive outcome (A : Type) : Type :=
  | Return (a : A)
  | Raise (e : exn).
Arguments Return {A} a.
Arguments Raise {A} e.

#[global] Instance outcome_ret : MRet outcome := fun _ a => Return a.
#[global] Instance outcome_bind : MBind outcome := fun _ _ k c =>
  match c with
  | Return a => k a
  | Raise e => Raise e
  end.

(** ** Protobuf messages *)

(** [TensorProto.DataType]; the enumeration values used by ONNX. *)
Inductive DataType : Type :=
  | UNDEFINED | FLOAT | UINT8 | INT8 | UINT16 | INT16 | INT32 | INT64
  | STRING | BOOL | FLOAT16 | DOUBLE.

(** A value info: name, element type and shape of a tensor without data. *)
Record ValueInfoProto : Type := {
  vi_name : string;
  vi_elem_type : DataType;
  vi_shape : list Z
}.

(** A constant tensor.  An element of a FLOAT tensor is represented by the
    decimal literal it is written as in the script. *)
Record TensorProto : Type := {
  tp_name : string;
  tp_data_type : DataType;
  tp_dims : list Z;
  tp_float_data : list Q
}.

Inductive AttributeValue : Type :=
  | AttrInt (i : Z)
  | AttrFloat (f : Q)
  | AttrString (s : string)
  | AttrInts (l : list Z).

Record AttributeProto : Type := {
  at_name : string;
  at_value : AttributeValue
}.

Record NodeProto : Type := {
  nd_op_type : string;
  nd_input : list string;
  nd_output : list string;
  nd_attribute : list AttributeProto
}.

Record GraphProto : Type := {
  gp_node : list NodeProto;
  gp_name : string;
  gp_input : list ValueInfoProto;
  gp_output : list ValueInfoProto;
  gp_initializer : list TensorProto
}.

Record OperatorSetIdProto : Type := {
  os_domain : string;
  os_version : Z
}.

Record ModelProto : Type := {
  mp_ir_version : Z;
  mp_producer_name : string;
  mp_opset_import : list OperatorSetIdProto;
  mp_graph : GraphProto
}.

(** ** numpy *)

Module np.
(** [ndarray.flatten] of a two-dimensional array: row-major order. *)
Definition flatten (a : list (list Q)) : list Q := concat a.
End np.

(** ** onnx.helper *)

Module helper.

Definition make_tensor_value_info
    (name : string) (elem_type : DataType) (shape : list Z) : ValueInfoProto :=
  {| vi_name := name; vi_elem_type := elem_type; vi_shape := shape |}.

Definition expected_size (dims : list Z) : Z :=
  fold_left Z.mul dims 1.

(** [make_tensor] refuses values whose number differs from the size the
    dimensions give. *)
Definition make_tensor
    (name : string) (data_type : DataType) (dims : list Z) (vals : list Q)
    : outcome TensorProto :=
  if Z.of_nat (length vals) =? expected_size dims then
    Return {| tp_name := name; tp_data_type := data_type;
              tp_dims := dims; tp_float_data := vals |}
  else
    Raise (ValueError "Number of values does not match tensor's size.").

Definition make_node
    (op_type : string) (inputs outputs : list string)
    (kwargs : list AttributeProto) : NodeProto :=
  {| nd_op_type := op_type; nd_input := inputs; nd_output := outputs;
     nd_attribute := kwargs |}.

Definition make_graph
    (nodes : list NodeProto) (name : string)
    (inputs outputs : list ValueInfoProto)
    (initializer : list TensorProto) : GraphProto :=
  {| gp_node := nodes; gp_name := name; gp_input := inputs;
     gp_output := outputs; gp_initializer := initializer |}.

End helper.

(** The two constants of the installed onnx package that [make_model]
    reads: the IR version it stamps and the operator-set version it
    imports by default. *)
Record OnnxLib : Type := {
  IR_VERSION : Z;
  onnx_opset_version : Z
}.

Definition make_model (lib : OnnxLib) (graph : GraphProto)
    (producer_name : string) : ModelProto :=
  {| mp_ir_version := IR_VERSION lib;
     mp_producer_name := producer_name;
     mp_opset_import :=
       [ {| os_domain := ""; os_version := onnx_opset_version lib |} ];
     mp_graph := graph |}.

(** [model.opset_import[0].version = v] *)
Definition set_opset_version (v : Z) (m : ModelProto) : outcome ModelProto :=
  match mp_opset_import m with
  | o :: rest =>
      Return {| mp_ir_version := mp_ir_version m;
                mp_producer_name := mp_producer_name m;
                mp_opset_import :=
                  {| os_domain := os_domain o; os_version := v |} :: rest;
                mp_graph := mp_graph m |}
  | [] => Raise (ValueError "list index out of range")
  end.

(** ** The builder *)

Definition input_node : ValueInfoProto :=
  helper.make_tensor_value_info "weather_input" FLOAT [1; 4].

Definition output_node : ValueInfoProto :=
  helper.make_tensor_value_info "advice_category" FLOAT [1; 5].

Definition weights : list (list Q) :=
  [ [0.4; 0.3; 0.2; 0.1];
    [0.2; 0.4; 0.3; 0.1];
    [0.1; 0.2; 0.6; 0.1];
    [0.3; 0.2; 0.1; 0.4];
    [0.25; 0.25; 0.25; 0.25] ]%Q.

Definition bias : list Q := [0.1; 0.1; 0.1; 0.1; 0.1]%Q.

Definition weight_tensor : outcome TensorProto :=
  helper.make_tensor "weights" FLOAT [5; 4] (np.flatten weights).

Definition bias_tensor : outcome TensorProto :=
  helper.make_tensor "bias" FLOAT [5] bias.

Definition matmul_node : NodeProto :=
  helper.make_node "MatMul" ["weather_input"; "weights"] ["matmul_output"] [].

Definition add_node : NodeProto :=
  helper.make_node "Add" ["matmul_output"; "bias"] ["add_output"] [].

Definition softmax_node : NodeProto :=
  helper.make_node "Softmax" ["add_output"] ["advice_category"]
    [ {| at_name := "axis"; at_value := AttrInt 1 |} ].

Definition graph : outcome GraphProto :=
  wt ← weight_tensor;
  bt ← bias_tensor;
  mret (helper.make_graph
            [matmul_node; add_node; softmax_node]
            "weather_advisor"
            [input_node]
            [output_node]
            [wt; bt]).

Definition create_simple_weather_model (lib : OnnxLib) : outcome ModelProto :=
  g ← graph;
  set_opset_version 13 (make_model lib g "vaero-weather-ai").

(** ** Operator semantics

    The script names its operators by their ONNX identifiers and leaves
    their meaning to the format; the operators themselves are library
    code, not part of the repository.  They are given here the meaning
    ONNX documents for them at operator set 13, the version the script
    selects: [MatMul] is numpy's matmul, [Add] is elementwise with numpy
    broadcasting, [Softmax] is [Exp(x) / ReduceSum(Exp(x), axis)]. *)

Inductive graph_error : Type :=
  | UnresolvedName (name : string)
  | MatMulMismatch (a b : list Z)
  | BroadcastMismatch (a b : list Z)
  | AxisOutOfRange (axis : Z) (rank : nat)
  | BadArity (op : string)
  | BadAttribute (op attr : string)
  | UnsupportedOp (op : string)
  | UnsupportedRank (dims : list Z)
  | DeclaredShapeMismatch (name : string) (declared inferred : list Z).

Inductive checked (A : Type) : Type :=
  | Ok (a : A)
  | Fail (e : graph_error).
Arguments Ok {A} a.
Arguments Fail {A} e.

#[global] Instance checked_ret : MRet checked := fun _ a => Ok a.
#[global] Instance checked_bind : MBind checked := fun _ _ k c =>
  match c with
  | Ok a => k a
  | Fail e => Fail e
  end.

(** *** Shapes *)

Module Shape.

(** Broadcasting of two shapes given innermost dimension first. *)
Fixpoint broadcast_rev (a b : list Z) : option (list Z) :=
  match a, b with
  | [], _ => Some b
  | _, [] => Some a
  | x :: a', y :: b' =>
      match broadcast_rev a' b' with
      | None => None
      | Some r =>
          if x =? y then Some (x :: r)
          else if x =? 1 then Some (y :: r)
          else if y =? 1 then Some (x :: r)
          else None
      end
  end.

Definition broadcast (a b : list Z) : checked (list Z) :=
  match broadcast_rev (rev a) (rev b) with
  | Some r => Ok (rev r)
  | None => Fail (BroadcastMismatch a b)
  end.

(** The shape of [numpy.matmul a b].  A one-dimensional left operand
    counts as a row, a one-dimensional right operand as a column, and
    the dimension added for it is dropped from the result; leading
    dimensions broadcast. *)
Definition matmul (a b : list Z) : checked (list Z) :=
  match rev a, rev b with
  | [], _ | _, [] => Fail (MatMulMismatch a b)
  | [k], [k'] =>
      if k =? k' then Ok [] else Fail (MatMulMismatch a b)
  | [k], n :: k' :: batch =>
      if k =? k' then Ok (rev batch ++ [n]) else Fail (MatMulMismatch a b)
  | k :: m :: batch, [k'] =>
      if k =? k' then Ok (rev batch ++ [m]) else Fail (MatMulMismatch a b)
  | k :: m :: batch_a, n :: k' :: batch_b =>
      if k =? k' then
        match broadcast_rev batch_a batch_b with
        | Some batch => Ok (rev batch ++ [m; n])
        | None => Fail (MatMulMismatch a b)
        end
      else Fail (MatMulMismatch a b)
  end.

Definition softmax (axis : Z) (a : list Z) : checked (list Z) :=
  let r := Z.of_nat (length a) in
  if (- r <=? axis) && (axis <? r) then Ok a
  else Fail (AxisOutOfRange axis (length a)).

End Shape.

(** The integer attribute [name] of a node, or [default] when absent. *)
Fixpoint get_int_attribute (name : string) (default : Z)
    (attrs : list AttributeProto) : option Z :=
  match attrs with
  | [] => Some default
  | a :: rest =>
      if String.eqb (at_name a) name then
        match at_value a with
        | AttrInt i => Some i
        | _ => None
        end
      else get_int_attribute name default rest
  end.

Section node_step.
Context {V : Type}.
Variable op_matmul : V -> V -> checked V.
Variable op_add : V -> V -> checked V.
Variable op_softmax : Z -> V -> checked V.

Definition fetch (env : gmap string V) (name : string) : checked V :=
  match env !! name with
  | Some v => Ok v
  | None => Fail (UnresolvedName name)
  end.

(** One node: read the operands by name, apply the operator, bind the
    result to the node's output name. *)
Definition step (env : gmap string V) (n : NodeProto)
    : checked (gmap string V) :=
  if String.eqb (nd_op_type n) "MatMul" then
    match nd_input n, nd_output n with
    | [a; b], [y] =>
        va ← fetch env a; vb ← fetch env b;
        r ← op_matmul va vb; Ok (<[y := r]> env)
    | _, _ => Fail (BadArity "MatMul")
    end
  else if String.eqb (nd_op_type n) "Add" then
    match nd_input n, nd_output n with
    | [a; b], [y] =>
        va ← fetch env a; vb ← fetch env b;
        r ← op_add va vb; Ok (<[y := r]> env)
    | _, _ => Fail (BadArity "Add")
    end
  else if String.eqb (nd_op_type n) "Softmax" then
    match nd_input n, nd_output n with
    | [a], [y] =>
        match get_int_attribute "axis" (-1) (nd_attribute n) with
        | Some axis =>
            va ← fetch env a;
            r ← op_softmax axis va; Ok (<[y := r]> env)
        | None => Fail (BadAttribute "Softmax" "axis")
        end
    | _, _ => Fail (BadArity "Softmax")
    end
  else Fail (UnsupportedOp (nd_op_type n)).

(** The nodes in declaration order. *)
Fixpoint steps (env : gmap string V) (ns : list NodeProto)
    : checked (gmap string V) :=
  match ns with
  | [] => Ok env
  | n :: rest => env' ← step env n; steps env' rest
  end.

Fixpoint fetch_all (env : gmap string V) (names : list string)
    : checked (list V) :=
  match names with
  | [] => Ok []
  | x :: rest =>
      v ← fetch env x; vs ← fetch_all env rest; Ok (v :: vs)
  end.
End node_step.

(** *** Static shape inference over the graph *)

Definition shape_env (g : GraphProto) : gmap string (list Z) :=
  list_to_map
    (map (fun t => (tp_name t, tp_dims t)) (gp_initializer g)
     ++ map (fun v => (vi_name v, vi_shape v)) (gp_input g)).

Definition infer_shapes (g : GraphProto) : checked (gmap string (list Z)) :=
  steps Shape.matmul Shape.broadcast Shape.softmax (shape_env g) (gp_node g).

Definition shape_eqb (a b : list Z) : bool :=
  bool_decide (a = b).

Fixpoint check_outputs (env : gmap string (list Z))
    (outs : list ValueInfoProto) : checked unit :=
  match outs with
  | [] => Ok tt
  | o :: rest =>
      s ← fetch env (vi_name o);
      if shape_eqb s (vi_shape o) then check_outputs env rest
      else Fail (DeclaredShapeMismatch (vi_name o) (vi_shape o) s)
  end.

(** Shapes are consistent when inference goes through every node and
    gives each declared output its declared shape. *)
Definition check_shapes (g : GraphProto) : checked unit :=
  env ← infer_shapes g; check_outputs env (gp_output g).

(** *** Values *)

(** A tensor of rank at most two over the reals; a matrix is the list of
    its rows. *)
Inductive value : Type :=
  | Scalar (x : R)
  | Vec (v : list R)
  | Mat (rows : list (list R)).

Definition dims_of (v : value) : list Z :=
  match v with
  | Scalar _ => []
  | Vec v => [Z.of_nat (length v)]
  | Mat rows => [Z.of_nat (length rows); Z.of_nat (length (hd [] rows))]
  end.

Definition Rsum (l : list R) : R := fold_right Rplus 0%R l.

Definition dot (a b : list R) : R := Rsum (zip_with Rmult a b).

Definition column (j : nat) (m : list (list R)) : list R :=
  map (fun row => nth j row 0%R) m.

Definition transpose (m : list (list R)) : list (list R) :=
  map (fun j => column j m) (seq 0 (length (hd [] m))).

(** Row [i] of the product is the dot product of row [i] of [a] with each
    column of [b]. *)
Definition mat_mul (a b : list (list R)) : list (list R) :=
  map (fun row => map (dot row) (transpose b)) a.

Definition matmul (a b : value) : checked value :=
  _ ← Shape.matmul (dims_of a) (dims_of b);
  match a, b with
  | Vec x, Vec y => Ok (Scalar (dot x y))
  | Vec x, Mat m => Ok (Vec (map (dot x) (transpose m)))
  | Mat m, Vec y => Ok (Vec (map (fun row => dot row y) m))
  | Mat m, Mat n => Ok (Mat (mat_mul m n))
  | _, _ => Fail (MatMulMismatch (dims_of a) (dims_of b))
  end.

(** Pairing along one axis, a length-one side being repeated. *)
Definition bzip {A} (f : A -> A -> A) (a b : list A) : list A :=
  match a, b with
  | [x], _ => map (f x) b
  | _, [y] => map (fun x => f x y) a
  | _, _ => zip_with f a b
  end.

Definition add (a b : value) : checked value :=
  _ ← Shape.broadcast (dims_of a) (dims_of b);
  Ok match a, b with
     | Scalar x, Scalar y => Scalar (x + y)
     | Scalar x, Vec v => Vec (map (Rplus x) v)
     | Vec v, Scalar y => Vec (map (fun x => x + y)%R v)
     | Scalar x, Mat m => Mat (map (map (Rplus x)) m)
     | Mat m, Scalar y => Mat (map (map (fun x => x + y)%R) m)
     | Vec u, Vec v => Vec (bzip Rplus u v)
     | Mat m, Vec v => Mat (map (fun row => bzip Rplus row v) m)
     | Vec u, Mat m => Mat (map (fun row => bzip Rplus u row) m)
     | Mat m, Mat n => Mat (bzip (bzip Rplus) m n)
     end.

(** [Exp(x) / ReduceSum(Exp(x))] along one list. *)
Definition softmax_list (l : list R) : list R :=
  let s := Rsum (map exp l) in
  map (fun x => (exp x / s)%R) l.

Definition softmax (axis : Z) (a : value) : checked value :=
  _ ← Shape.softmax axis (dims_of a);
  match a with
  | Scalar _ => Fail (AxisOutOfRange axis 0)
  | Vec v => Ok (Vec (softmax_list v))
  | Mat m =>
      if (axis =? 1) || (axis =? -1) then Ok (Mat (map softmax_list m))
      else Ok (Mat (transpose (map softmax_list (transpose m))))
  end.

(** *** Running the graph *)

Fixpoint chunks (rows cols : nat) (l : list R) : list (list R) :=
  match rows with
  | O => []
  | S rows' => take cols l :: chunks rows' cols (drop cols l)
  end.

(** The value an embedded constant denotes; its data are in row-major
    order. *)
Definition value_of_tensor (t : TensorProto) : checked value :=
  let data := map Q2R (tp_float_data t) in
  match tp_dims t with
  | [] => match data with
          | [x] => Ok (Scalar x)
          | _ => Fail (UnsupportedRank [])
          end
  | [_] => Ok (Vec data)
  | [r; c] => Ok (Mat (chunks (Z.to_nat r) (Z.to_nat c) data))
  | d => Fail (UnsupportedRank d)
  end.

Fixpoint bind_initializers (env : gmap string value) (ts : list TensorProto)
    : checked (gmap string value) :=
  match ts with
  | [] => Ok env
  | t :: rest =>
      v ← value_of_tensor t;
      bind_initializers (<[tp_name t := v]> env) rest
  end.

(** Each declared input must be fed a value of its declared shape. *)
Fixpoint check_feeds (env : gmap string value) (ins : list ValueInfoProto)
    : checked unit :=
  match ins with
  | [] => Ok tt
  | i :: rest =>
      v ← fetch env (vi_name i);
      if shape_eqb (dims_of v) (vi_shape i) then check_feeds env rest
      else Fail (DeclaredShapeMismatch (vi_name i) (vi_shape i) (dims_of v))
  end.

(** The reference run: feed the inputs, bind the constants, run the nodes
    in order, read the declared outputs. *)
Definition run_graph (g : GraphProto) (feeds : list (string * value))
    : checked (list value) :=
  let env0 : gmap string value := list_to_map feeds in
  _ ← check_feeds env0 (gp_input g);
  env1 ← bind_initializers env0 (gp_initializer g);
  env2 ← steps matmul add softmax env1 (gp_node g);
  fetch_all env2 (map vi_name (gp_output g)).

(** ** Structural validation *)

(** The names a graph provides before any node runs. *)
Definition declared_names (g : GraphProto) : list string :=
  map vi_name (gp_input g) ++ map tp_name (gp_initializer g).

Definition first_missing (known names : list string) : option string :=
  head (filter (fun x => x ∉ known) names).

(** Every name a node consumes is known when the node is reached; its
    outputs are known from then on. *)
Fixpoint check_names_from (known : list string) (ns : list NodeProto)
    : checked (list string) :=
  match ns with
  | [] => Ok known
  | n :: rest =>
      match first_missing known (nd_input n) with
      | Some x => Fail (UnresolvedName x)
      | None => check_names_from (known ++ nd_output n) rest
      end
  end.

(** Every referenced tensor name resolves: the operands of the nodes and
    the declared outputs of the graph. *)
Definition check_names (g : GraphProto) : checked unit :=
  known ← check_names_from (declared_names g) (gp_node g);
  match first_missing known (map vi_name (gp_output g)) with
  | Some x => Fail (UnresolvedName x)
  | None => Ok tt
  end.

Inductive attr_kind : Type := KInt | KFloat | KString | KInts.

Definition kind_of (v : AttributeValue) : attr_kind :=
  match v with
  | AttrInt _ => KInt
  | AttrFloat _ => KFloat
  | AttrString _ => KString
  | AttrInts _ => KInts
  end.

#[global] Instance attr_kind_eq_dec : EqDecision attr_kind.
Proof. solve_decision. Defined.

(** What operator set 13 declares for an operator: how many inputs and
    outputs it takes and which attributes it knows, each with its kind
    and whether it is required. *)
Record OpSchema : Type := {
  sc_inputs : nat;
  sc_outputs : nat;
  sc_attributes : list (string * attr_kind * bool)
}.

Definition schema (op : string) : option OpSchema :=
  if String.eqb op "MatMul" then
    Some {| sc_inputs := 2; sc_outputs := 1; sc_attributes := [] |}
  else if String.eqb op "Add" then
    Some {| sc_inputs := 2; sc_outputs := 1; sc_attributes := [] |}
  else if String.eqb op "Softmax" then
    Some {| sc_inputs := 1; sc_outputs := 1;
            sc_attributes := [("axis", KInt, false)] |}
  else None.

Definition attribute_known (sc : OpSchema) (a : AttributeProto) : bool :=
  existsb (fun d => bool_decide (d.1.1 = at_name a)
                    && bool_decide (d.1.2 = kind_of (at_value a)))
          (sc_attributes sc).

Definition attribute_supplied (n : NodeProto)
    (d : string * attr_kind * bool) : bool :=
  negb d.2 || existsb (fun a => bool_decide (at_name a = d.1.1)) (nd_attribute n).

Definition check_node (n : NodeProto) : checked unit :=
  match schema (nd_op_type n) with
  | None => Fail (UnsupportedOp (nd_op_type n))
  | Some sc =>
      if negb (bool_decide (length (nd_input n) = sc_inputs sc)
               && bool_decide (length (nd_output n) = sc_outputs sc))
      then Fail (BadArity (nd_op_type n))
      else if forallb (attribute_known sc) (nd_attribute n)
                && forallb (attribute_supplied n) (sc_attributes sc)
      then Ok tt
      else Fail (BadAttribute (nd_op_type n) "")
  end.

(** Operator attribute sets are complete: every node carries only
    attributes its operator declares, of the declared kind, and all the
    required ones. *)
Fixpoint check_attributes (ns : list NodeProto) : checked unit :=
  match ns with
  | [] => Ok tt
  | n :: rest => _ ← check_node n; check_attributes rest
  end.

(** Modelled from the spec: the validation step of the builder
    ([onnx.checker], which the script calls, is library code outside the
    repository's sources).  It checks that every referenced tensor name
    resolves, that shapes are consistent where they can be determined
    statically, and that operator attribute sets are complete. *)
Definition validate (m : ModelProto) : checked unit :=
  let g := mp_graph m in
  _ ← check_names g;
  _ ← check_shapes g;
  check_attributes (gp_node g).

(** Modelled from the spec: the same validation step without its shape
    clause, which is what the script's call [check_model(model)] asks of the
    library: shape inference belongs to the checker's full check, and the
    script does not request it. *)
Definition check_model_default (m : ModelProto) : checked unit :=
  let g := mp_graph m in
  _ ← check_names g;
  check_attributes (gp_node g).

Definition describe (e : graph_error) : string :=
  match e with
  | UnresolvedName x => "unresolved tensor name " ++ x
  | MatMulMismatch _ _ => "incompatible dimensions for MatMul"
  | BroadcastMismatch _ _ => "incompatible dimensions for broadcasting"
  | AxisOutOfRange _ _ => "axis out of range"
  | BadArity op => "wrong number of inputs or outputs for " ++ op
  | BadAttribute op _ => "unrecognized or missing attribute for " ++ op
  | UnsupportedOp op => "no schema registered for " ++ op
  | UnsupportedRank _ => "unsupported tensor rank"
  | DeclaredShapeMismatch x _ _ => "shape mismatch for " ++ x
  end%string.

(** A check as the Python call that raises [ValidationError]. *)
Definition raising (check : ModelProto -> checked unit) (m : ModelProto)
    : outcome unit :=
  match check m with
  | Ok _ => Return tt
  | Fail e => Raise (ValidationError (describe e))
  end.


(** ** The file system and the process state *)

(** An entry of the file tree, keyed by its absolute path: the list of
    components from the root.  The root itself always is a directory. *)
Inductive entry : Type :=
  | Dir
  | File (content : list Byte.byte).

(** What [main] prints, line by line.  [MsgSize] carries the size in bytes
    that the script prints in kilobytes with one decimal. *)
Inductive message : Type :=
  | MsgCreating
  | MsgValidationPassed
  | MsgValidationFailed (e : exn)
  | MsgSaved (path : string)
  | MsgSize (bytes : nat)
  | MsgInputShape
  | MsgOutputShape.

(** The state a run starts in and leaves behind.  [script_dir], [clock] and
    [environ] are ambient facts a script could read. *)
Record World : Type := {
  fs : gmap (list string) entry;
  cwd : list string;
  script_dir : list string;
  clock : Z;
  environ : gmap string string;
  stdout : list message
}.

Definition set_fs (f : gmap (list string) entry) (w : World) : World :=
  {| fs := f; cwd := cwd w; script_dir := script_dir w; clock := clock w;
     environ := environ w; stdout := stdout w |}.

Definition put_line (m : message) (w : World) : World :=
  {| fs := fs w; cwd := cwd w; script_dir := script_dir w; clock := clock w;
     environ := environ w; stdout := stdout w ++ [m] |}.

(** *** os.path on strings *)

Module path.

Definition slash : ascii := "/"%char.

Definition is_slash (c : ascii) : bool := Ascii.eqb c slash.

Fixpoint drop_while (f : ascii -> bool) (l : list ascii) : list ascii :=
  match l with
  | [] => []
  | c :: rest => if f c then drop_while f rest else l
  end.

Fixpoint take_while (f : ascii -> bool) (l : list ascii) : list ascii :=
  match l with
  | [] => []
  | c :: rest => if f c then c :: take_while f rest else []
  end.

(** [posixpath.split]: everything up to the last slash, and what follows
    it; trailing slashes are stripped from the head unless it consists
    of slashes only. *)
Definition split (p : string) : string * string :=
  let r := rev (list_ascii_of_string p) in
  let tail := rev (take_while (fun c => negb (is_slash c)) r) in
  let head := drop_while (fun c => negb (is_slash c)) r in
  let head' :=
    if forallb is_slash head then head else drop_while is_slash head in
  (string_of_list_ascii (rev head'), string_of_list_ascii tail).

Definition dirname (p : string) : string := (split p).1.

Fixpoint split_on_slash (l : list ascii) : list (list ascii) :=
  match l with
  | [] => [[]]
  | c :: rest =>
      if is_slash c then [] :: split_on_slash rest
      else match split_on_slash rest with
           | w :: ws => (c :: w) :: ws
           | [] => [[c]]
           end
  end.

Definition components (p : string) : list string :=
  map string_of_list_ascii (split_on_slash (list_ascii_of_string p)).

Definition isabs (p : string) : bool :=
  match p with
  | String c _ => is_slash c
  | EmptyString => false
  end.

End path.

(** *** Path lookup *)

Definition is_dir (f : gmap (list string) entry) (p : list string) : bool :=
  match p with
  | [] => true
  | _ => match f !! p with Some Dir => true | _ => false end
  end.

Definition is_present (f : gmap (list string) entry) (p : list string) : bool :=
  match p with
  | [] => true
  | _ => bool_decide (is_Some (f !! p))
  end.

Definition parent (p : list string) : list string := removelast p.

(** One component from the directory [cur]. *)
Definition enter (cur : list string) (c : string) : list string :=
  if String.eqb c "" || String.eqb c "." then cur
  else if String.eqb c ".." then parent cur
  else cur ++ [c].

(** Following [comps] from [cur]: every place a component is taken from
    has to be a directory; the place reached need not exist. *)
Fixpoint walk (f : gmap (list string) entry) (name : string)
    (cur : list string) (comps : list string) : outcome (list string) :=
  match comps with
  | [] => Return cur
  | c :: rest =>
      if is_dir f cur then walk f name (enter cur c) rest
      else if is_present f cur then Raise (NotADirectoryError name)
      else Raise (FileNotFoundError name)
  end.

Definition resolve (w : World) (name : string) : outcome (list string) :=
  if String.eqb name "" then Raise (FileNotFoundError name)
  else walk (fs w) name (if path.isabs name then [] else cwd w)
            (path.components name).

(** *** The process monad *)

Definition Proc (A : Type) : Type := World -> outcome A * World.

#[global] Instance Proc_ret : MRet Proc := fun _ a w => (Return a, w).
#[global] Instance Proc_bind : MBind Proc := fun _ _ k c w =>
  match c w with
  | (Return a, w') => k a w'
  | (Raise e, w') => (Raise e, w')
  end.

Definition raise {A} (e : exn) : Proc A := fun w => (Raise e, w).

Definition lift {A} (c : outcome A) : Proc A := fun w => (c, w).

(** [try: c  except E as e: h e], where [handles] tells the exceptions of
    class [E]. *)
Definition try_except {A} (c : Proc A) (handles : exn -> bool)
    (h : exn -> Proc A) : Proc A := fun w =>
  match c w with
  | (Raise e, w') => if handles e then h e w' else (Raise e, w')
  | r => r
  end.

Definition print (m : message) : Proc unit := fun w => (Return tt, put_line m w).

Module os.

Definition path_exists (name : string) : Proc bool := fun w =>
  match resolve w name with
  | Return p => (Return (is_present (fs w) p), w)
  | Raise _ => (Return false, w)
  end.

Definition path_isdir (name : string) : Proc bool := fun w =>
  match resolve w name with
  | Return p => (Return (is_dir (fs w) p), w)
  | Raise _ => (Return false, w)
  end.

Definition mkdir (name : string) : Proc unit := fun w =>
  match resolve w name with
  | Raise e => (Raise e, w)
  | Return p =>
      if is_present (fs w) p then (Raise (FileExistsError name), w)
      else (Return tt, set_fs (<[p := Dir]> (fs w)) w)
  end.

(** [os.makedirs(name, exist_ok=exist_ok)].  The recursion on the head
    of the path is bounded by [fuel]. *)
Fixpoint makedirs_rec (fuel : nat) (name : string) (exist_ok : bool)
    : Proc unit :=
  match fuel with
  | O => raise RecursionError
  | S fuel' =>
      let '(head, tail) := path.split name in
      let '(head, tail) :=
        if String.eqb tail "" then path.split head else (head, tail) in
      head_exists ← path_exists head;
      done ←
        (if negb (String.eqb head "") && negb (String.eqb tail "")
            && negb head_exists
         then
           _ ← try_except (makedirs_rec fuel' head exist_ok)
                 is_FileExistsError (fun _ => mret tt);
           mret (String.eqb tail ".")
         else mret false);
      if done : bool then mret tt
      else
        try_except (mkdir name) is_OSError
          (fun e =>
             isdir ← path_isdir name;
             if negb exist_ok || negb isdir then raise e else mret tt)
  end.

Definition makedirs (name : string) (exist_ok : bool) : Proc unit :=
  makedirs_rec (S (String.length name)) name exist_ok.

(** The size of a file; the size reported for a directory is not
    modelled and reads as zero. *)
Definition path_getsize (name : string) : Proc nat := fun w =>
  match resolve w name with
  | Raise e => (Raise e, w)
  | Return p =>
      match fs w !! p with
      | Some (File c) => (Return (length c), w)
      | Some Dir => (Return O, w)
      | None =>
          match p with
          | [] => (Return O, w)
          | _ => (Raise (FileNotFoundError name), w)
          end
      end
  end.

(** [open(name, "wb")] followed by one write of [content].  The two are
    taken as one step that fails as a whole or succeeds as a whole: the
    open can fail (no such directory, a directory in the way), a write
    that breaks off after the file was created or truncated is not
    modelled. *)
Definition write_file (name : string) (content : list Byte.byte)
    : Proc unit := fun w =>
  match resolve w name with
  | Raise e => (Raise e, w)
  | Return p =>
      if is_dir (fs w) p then (Raise (IsADirectoryError name), w)
      else (Return tt, set_fs (<[p := File content]> (fs w)) w)
  end.

End os.

(** ** main *)

Section Main.

(** The installed onnx package: its constants, its checker as the script
    calls it, and the protobuf serializer behind [onnx.save]. *)
Variable lib : OnnxLib.
Variable check_model : ModelProto -> outcome unit.
Variable SerializeToString : ModelProto -> list Byte.byte.

(** [onnx.save(model, path)] *)
Definition save (model : ModelProto) (name : string) : Proc unit :=
  os.write_file name (SerializeToString model).

Definition output_path : string := "../models/weather-advisor.onnx".

(** The part of [main] after a passed validation. *)
Definition save_and_report (model : ModelProto) : Proc unit :=
  _ ← os.makedirs (path.dirname output_path) true;
  _ ← save model output_path;
  _ ← print (MsgSaved output_path);
  file_size ← os.path_getsize output_path;
  _ ← print (MsgSize file_size);
  _ ← print MsgInputShape;
  print MsgOutputShape.

Definition main : Proc unit :=
  _ ← print MsgCreating;
  model ← lift (create_simple_weather_model lib);
  validated ←
    try_except
      (_ ← lift (check_model model);
       _ ← print MsgValidationPassed;
       mret true)
      (fun _ => true)
      (fun e => _ ← print (MsgValidationFailed e); mret false);
  if validated : bool then save_and_report model else mret tt.

End Main.

(** ** Example instances *)

(** The input of the spec's numeric property: one row of four zeros. *)
Definition zero_input : value := Mat [[0; 0; 0; 0]]%R.

(** An installation of the onnx package. *)
Definition onnx_1_13 : OnnxLib := {| IR_VERSION := 8; onnx_opset_version := 18 |}.

(** ** Vocabulary of the properties *)

(** Every name a node consumes is produced by a declared input, by an
    embedded constant, or by a node earlier in the sequence. *)
Definition names_resolve (g : GraphProto) : Prop :=
  forall (i : nat) (n : NodeProto) (x : string),
    gp_node g !! i = Some n -> x ∈ nd_input n ->
    x ∈ map vi_name (gp_input g)
    \/ x ∈ map tp_name (gp_initializer g)
    \/ exists (j : nat) (n' : NodeProto),
         (j < i)%nat /\ gp_node g !! j = Some n' /\ x ∈ nd_output n'.

(** The place a path names when followed from the directory [cur]
    without consulting the file tree. *)
Definition locate (cur : list string) (name : string) : list string :=
  fold_left enter (path.components name)
            (if path.isabs name then [] else cur).

(** The directory and the file [main] aims at when run from [cur]. *)
Definition models_dir (cur : list string) : list string :=
  parent cur ++ ["models"].

Definition model_file (cur : list string) : list string :=
  models_dir cur ++ ["weather-advisor.onnx"].

(** A computation that touches nothing of the world but the file tree. *)
Definition only_fs {A} (c : Proc A) : Prop :=
  forall w r w', c w = (r, w') -> w' = set_fs (fs w') w.

(** The lines [main] prints after a passed validation when it saved
    [bytes]. *)
Definition report (bytes : list Byte.byte) : list message :=
  [ MsgSaved output_path; MsgSize (length bytes);
    MsgInputShape; MsgOutputShape ].

(** ** Example worlds *)

(** A stand-in for the serializer in the examples: the bytes of the
    producer name. *)
Definition producer_bytes (m : ModelProto) : list Byte.byte :=
  list_byte_of_string (mp_producer_name m).

Definition repo_tree : list (list string * entry) :=
  [ (["home"], Dir); (["home"; "user"], Dir);
    (["repo"], Dir); (["repo"; "apps"], Dir);
    (["repo"; "apps"; "backend"], Dir);
    (["repo"; "apps"; "backend"; "scripts"], Dir) ].

Definition scripts_dir : list string := ["repo"; "apps"; "backend"; "scripts"].

(** The script started from a home directory. *)
Definition home_world : World :=
  {| fs := list_to_map repo_tree;
     cwd := ["home"; "user"];
     script_dir := scripts_dir;
     clock := 0;
     environ := ∅;
     stdout := [] |}.

(** The script started from its own directory, at another time, with the
    models directory already there. *)
Definition scripts_world : World :=
  {| fs := list_to_map ((["repo"; "apps"; "backend"; "models"], Dir) :: repo_tree);
     cwd := scripts_dir;
     script_dir := scripts_dir;
     clock := 1700000000;
     environ := {[ "HOME" := "/home/user" ]};
     stdout := [] |}.

(** A regular file sits where the models directory should go. *)
Definition blocked_world : World :=
  {| fs := list_to_map ((["home"; "models"], File []) :: repo_tree);
     cwd := ["home"; "user"];
     script_dir := scripts_dir;
     clock := 0;
     environ := ∅;
     stdout := [] |}.

(** A directory sits where the model file should go. *)
Definition occupied_world : World :=
  {| fs := list_to_map
             ((["home"; "models"], Dir)
              :: (["home"; "models"; "weather-advisor.onnx"], Dir)
              :: repo_tree);
     cwd := ["home"; "user"];
     script_dir := scripts_dir;
     clock := 0;
     environ := ∅;
     stdout := [] |}.

(** The world the run from the home directory leaves behind. *)
Definition home_world_saved : World :=
  Eval vm_compute in
    (main onnx_1_13 (raising check_model_default) producer_bytes home_world).2.

(** The world the run from the script's directory leaves behind. *)
Definition scripts_world_saved : World :=
  Eval vm_compute in
    (main onnx_1_13 (raising check_model_default) producer_bytes
       scripts_world).2.

(** A relation between the world before and after that a computation
    keeps, however it ends. *)
Definition respects (R : World -> World -> Prop) {A} (c : Proc A) : Prop :=
  forall w r w', c w = (r, w') -> R w w'.

(** The file tree kept every entry it had, and whatever it gained is a
    directory. *)
Definition gained_dirs (w w' : World) : Prop :=
  fs w ⊆ fs w'
  /\ forall p e, fs w' !! p = Some e -> fs w !! p = Some e \/ e = Dir.

(** Every tensor name of a graph has a single producer: the declared
    inputs, the constants and the node outputs are pairwise distinct. *)
Definition single_assignment (g : GraphProto) : Prop :=
  NoDup (declared_names g ++ concat (map nd_output (gp_node g))).

(** Each node has one output, which the next node takes as its first
    operand. *)
Definition chained (ns : list NodeProto) : Prop :=
  forall (i : nat) (n n' : NodeProto),
    ns !! i = Some n -> ns !! S i = Some n' ->
    exists y, nd_output n = [y] /\ head (nd_input n') = Some y.

(** * Properties of the builder *)

Lemma graph_returns :
  exists g, graph = Return g /\ gp_node g = [matmul_node; add_node; softmax_node].
Proof. eexists; split; reflexivity. Qed.

Lemma create_simple_weather_model_returns (lib : OnnxLib) :
  exists m,
    create_simple_weather_model lib = Return m
    /\ graph = Return (mp_graph m)
    /\ mp_ir_version m = IR_VERSION lib
    /\ mp_producer_name m = "vaero-weather-ai"
    /\ mp_opset_import m = [ {| os_domain := ""; os_version := 13 |} ].
Proof. eexists; repeat split; reflexivity. Qed.

(** C8: the graph declares exactly one input, "weather_input", FLOAT of
    shape [1, 4], and exactly one output, "advice_category", FLOAT of
    shape [1, 5]. *)
Theorem declared_input_and_output (lib : OnnxLib) :
  exists m,
    create_simple_weather_model lib = Return m
    /\ gp_input (mp_graph m) =
         [ {| vi_name := "weather_input"; vi_elem_type := FLOAT;
              vi_shape := [1; 4] |} ]
    /\ gp_output (mp_graph m) =
         [ {| vi_name := "advice_category"; vi_elem_type := FLOAT;
              vi_shape := [1; 5] |} ].
Proof. eexists; repeat split; reflexivity. Qed.

(** Row-major order: entry [j] of row [i] of a matrix with rows of length
    [cols] is entry [cols * i + j] of the flattened data. *)
Lemma flatten_row_major (cols : nat) (a : list (list Q)) :
  Forall (fun row => length row = cols) a ->
  forall (i j : nat) (row : list Q) (x : Q),
    a !! i = Some row -> row !! j = Some x ->
    np.flatten a !! (cols * i + j)%nat = Some x.
Proof.
  unfold np.flatten.
  induction 1 as [|r a Hr Ha IH]; intros i j row x Hi Hj.
  - discriminate.
  - destruct i as [|i]; simpl in *.
    + injection Hi as ->. rewrite Nat.mul_0_r. simpl.
      apply lookup_app_l_Some. exact Hj.
    + rewrite lookup_app_r by (rewrite Hr; lia).
      replace (cols * S i + j - length r)%nat with (cols * i + j)%nat
        by (rewrite Hr; lia).
      eapply IH; eauto.
Qed.

(** C9: the graph embeds exactly two constants: "weights" of shape [5, 4],
    whose twenty data are the literal matrix in row-major order, and
    "bias" of shape [5], whose five data all are 0.1. *)
Theorem embedded_constants (lib : OnnxLib) :
  exists m wt bt,
    create_simple_weather_model lib = Return m
    /\ gp_initializer (mp_graph m) = [wt; bt]
    /\ (tp_name wt = "weights" /\ tp_data_type wt = FLOAT
         /\ tp_dims wt = [5; 4]
         /\ length (tp_float_data wt) = 20%nat
         /\ tp_float_data wt =
              [0.4; 0.3; 0.2; 0.1;  0.2; 0.4; 0.3; 0.1;  0.1; 0.2; 0.6; 0.1;
               0.3; 0.2; 0.1; 0.4;  0.25; 0.25; 0.25; 0.25]%Q
         /\ forall (i j : nat) (row : list Q) (x : Q),
              weights !! i = Some row -> row !! j = Some x ->
              tp_float_data wt !! (4 * i + j)%nat = Some x)
    /\ (tp_name bt = "bias" /\ tp_data_type bt = FLOAT
         /\ tp_dims bt = [5]
         /\ length (tp_float_data bt) = 5%nat
         /\ Forall (fun x => x = 0.1%Q) (tp_float_data bt)).
Proof.
  eexists _, _, _. split; [reflexivity|]. split; [reflexivity|].
  split.
  - repeat (split; [reflexivity|]).
    apply (flatten_row_major 4 weights).
    repeat constructor.
  - repeat (split; [reflexivity|]).
    repeat constructor.
Qed.

(** ** Name resolution *)

Lemma first_missing_None (known names : list string) :
  first_missing known names = None -> forall x, x ∈ names -> x ∈ known.
Proof.
  unfold first_missing. intros H x Hx.
  apply head_None in H.
  destruct (decide (x ∈ known)) as [|Hn]; [assumption|].
  exfalso. eapply (filter_nil_not_elem_of _ _ x H); eauto.
Qed.

Lemma check_names_from_sound (ns : list NodeProto) :
  forall known known',
    check_names_from known ns = Ok known' ->
    forall (i : nat) (n : NodeProto) (x : string),
      ns !! i = Some n -> x ∈ nd_input n ->
      x ∈ known
      \/ exists (j : nat) (n' : NodeProto),
           (j < i)%nat /\ ns !! j = Some n' /\ x ∈ nd_output n'.
Proof.
  induction ns as [|n0 ns IH]; intros known known' Hc i n x Hi Hx.
  - discriminate.
  - simpl in Hc.
    destruct (first_missing known (nd_input n0)) eqn:Hm; [discriminate|].
    destruct i as [|i]; simpl in Hi.
    + injection Hi as <-. left. eapply first_missing_None; eauto.
    + destruct (IH _ _ Hc i n x Hi Hx) as [Hk | (j & n' & Hj & Hl & Ho)].
      * apply elem_of_app in Hk as [Hk | Hk]; [left; assumption|].
        right. exists 0%nat, n0. split; [lia|]. split; [reflexivity|assumption].
      * right. exists (S j), n'. split; [lia|]. split; assumption.
Qed.

Lemma check_names_sound (g : GraphProto) :
  check_names g = Ok tt -> names_resolve g.
Proof.
  unfold check_names. intros Hc i n x Hi Hx.
  destruct (check_names_from (declared_names g) (gp_node g)) as [known|] eqn:Hk;
    [|discriminate].
  destruct (check_names_from_sound _ _ _ Hk i n x Hi Hx) as [H | H].
  - apply elem_of_app in H as [H | H]; auto.
  - auto.
Qed.

(** C7: in the constructed graph every name a node consumes is produced by
    an earlier node, by the declared input, or by an embedded constant. *)
Theorem consumed_names_resolve (lib : OnnxLib) :
  exists m,
    create_simple_weather_model lib = Return m
    /\ names_resolve (mp_graph m).
Proof.
  eexists. split; [reflexivity|].
  apply check_names_sound. reflexivity.
Qed.

(** ** The shapes of the graph *)

(** C1: the operands of the MatMul node have shapes [1, 4] and [5, 4], whose
    inner dimensions 4 and 5 differ: shape inference stops at that node and
    no shape, [1, 5] or other, is derived for the output. *)
Theorem matmul_operands_incompatible (lib : OnnxLib) :
  exists m,
    create_simple_weather_model lib = Return m
    /\ shape_env (mp_graph m) !! "weather_input" = Some [1; 4]
    /\ shape_env (mp_graph m) !! "weights" = Some [5; 4]
    /\ Shape.matmul [1; 4] [5; 4] = Fail (MatMulMismatch [1; 4] [5; 4])
    /\ infer_shapes (mp_graph m) = Fail (MatMulMismatch [1; 4] [5; 4])
    /\ check_shapes (mp_graph m) = Fail (MatMulMismatch [1; 4] [5; 4]).
Proof. eexists. repeat split; vm_compute; reflexivity. Qed.

(** C3: the run of the graph on the input [[0, 0, 0, 0]] stops at the MatMul
    node with a dimension mismatch and yields no output. *)
Theorem zero_input_run_fails (lib : OnnxLib) :
  exists m,
    create_simple_weather_model lib = Return m
    /\ run_graph (mp_graph m) [("weather_input", zero_input)]
       = Fail (MatMulMismatch [1; 4] [5; 4]).
Proof. eexists. split; vm_compute; reflexivity. Qed.

(** C10: whatever the four input features are, the run of the graph stops
    at the MatMul node and yields no output, hence no distribution. *)
Theorem every_input_run_fails (lib : OnnxLib) (x1 x2 x3 x4 : R) :
  exists m,
    create_simple_weather_model lib = Return m
    /\ run_graph (mp_graph m) [("weather_input", Mat [[x1; x2; x3; x4]])]
       = Fail (MatMulMismatch [1; 4] [5; 4]).
Proof. eexists. split; vm_compute; reflexivity. Qed.

(** ** Softmax yields a distribution *)

Open Scope R_scope.

Lemma Rsum_exp_pos (l : list R) : l <> [] -> 0 < Rsum (map exp l).
Proof.
  destruct l as [|x l]; [congruence|intros _].
  revert x. induction l as [|y l IH]; intros x; simpl.
  - pose proof (exp_pos x). lra.
  - pose proof (exp_pos x). specialize (IH y). simpl in IH. lra.
Qed.

Lemma Rsum_map_div (f : R -> R) (s : R) (l : list R) :
  Rsum (map (fun x => f x / s) l) = Rsum (map f l) / s.
Proof.
  induction l as [|x l IH]; simpl.
  - unfold Rdiv. ring.
  - rewrite IH. unfold Rdiv. ring.
Qed.

Lemma softmax_list_length (l : list R) :
  length (softmax_list l) = length l.
Proof. unfold softmax_list. apply length_map. Qed.

(** Every entry of a softmax is strictly positive. *)
Lemma softmax_list_pos (l : list R) :
  Forall (fun y => 0 < y) (softmax_list l).
Proof.
  unfold softmax_list.
  destruct l as [|x0 l0]; [constructor|].
  assert (Hs : 0 < Rsum (map exp (x0 :: l0))) by (apply Rsum_exp_pos; congruence).
  apply Forall_forall. intros y Hy.
  apply list_elem_of_fmap in Hy as (x & -> & _).
  apply Rdiv_lt_0_compat; [apply exp_pos | exact Hs].
Qed.

(** The entries of a softmax over a non-empty list sum to one. *)
Lemma softmax_list_sum (l : list R) :
  l <> [] -> Rsum (softmax_list l) = 1.
Proof.
  intros Hl. unfold softmax_list.
  rewrite (Rsum_map_div exp).
  pose proof (Rsum_exp_pos l Hl).
  field. lra.
Qed.

(** The softmax of five equal scores is uniform. *)
Lemma softmax_list_uniform5 (b : R) :
  softmax_list [b; b; b; b; b] = [1/5; 1/5; 1/5; 1/5; 1/5].
Proof.
  unfold softmax_list. simpl.
  pose proof (exp_pos b).
  assert (E : exp b / (exp b + (exp b + (exp b + (exp b + (exp b + 0))))) = 1/5)
    by (field; lra).
  rewrite E. reflexivity.
Qed.

Close Scope R_scope.

(** The Softmax node on its own: applied along axis 1 to a matrix, it
    makes every row a distribution. *)
Lemma softmax_rows_distribution (rows : list (list R)) (v : value) :
  softmax 1 (Mat rows) = Ok v ->
  exists out,
    v = Mat out
    /\ length out = length rows
    /\ Forall (fun row => Forall (fun y => (0 < y)%R) row
                          /\ (row <> [] -> Rsum row = 1%R)) out.
Proof.
  unfold softmax. destruct (Shape.softmax 1 (dims_of (Mat rows))); [|discriminate].
  simpl. intros H. injection H as <-.
  exists (map softmax_list rows). split; [reflexivity|].
  split; [apply length_map|].
  apply Forall_forall. intros row Hrow.
  apply list_elem_of_fmap in Hrow as (r & -> & _).
  split; [apply softmax_list_pos|].
  intros Hne. apply softmax_list_sum. intros ->. apply Hne. reflexivity.
Qed.

(** ** The orientation the declared output asks for *)

(** A [4, 5] right operand is what a [1, 4] input needs to give [1, 5]. *)
Lemma matmul_shape_transposed :
  Shape.matmul [1; 4] [4; 5] = Ok [1; 5].
Proof. reflexivity. Qed.

(** With the weight matrix transposed, the zero input gives the scores of
    the bias alone and the softmax is uniform. *)
Lemma transposed_weights_zero_input :
  (scores ← matmul zero_input (Mat (transpose (map (map Q2R) weights)));
   biased ← add scores (Vec (map Q2R bias));
   softmax 1 biased)
  = Ok (Mat [[1/5; 1/5; 1/5; 1/5; 1/5]]%R).
Proof.
  assert (H : (scores ← matmul zero_input
                          (Mat (transpose (map (map Q2R) weights)));
               add scores (Vec (map Q2R bias)))
              = Ok (Mat [[Q2R 0.1; Q2R 0.1; Q2R 0.1; Q2R 0.1; Q2R 0.1]])).
  { cbv [mbind checked_bind matmul add zero_input dims_of Shape.matmul
         Shape.broadcast Shape.broadcast_rev weights bias transpose column
         mat_mul dot Rsum zip_with bzip map hd length seq nth rev app
         Z.of_nat Pos.of_succ_nat Pos.succ Z.eqb Pos.eqb fold_right].
    do 3 f_equal.
    repeat (apply (f_equal2 cons); [unfold Q2R; simpl; lra|]). reflexivity. }
  cbv [mbind checked_bind] in *.
  destruct (matmul zero_input _) as [scores|]; [|discriminate].
  rewrite H. cbv [softmax Shape.softmax dims_of length hd Z.of_nat
    Pos.of_succ_nat Pos.succ mbind checked_bind]. simpl.
  rewrite softmax_list_uniform5. reflexivity.
Qed.

(** * Properties of main *)

Lemma set_fs_set_fs (f g : gmap (list string) entry) (w : World) :
  set_fs f (set_fs g w) = set_fs f w.
Proof. reflexivity. Qed.

Lemma set_fs_id (w : World) : set_fs (fs w) w = w.
Proof. destruct w; reflexivity. Qed.

(** [main] prints its first line, builds the model and branches on the
    checker: on an exception it prints the failure and returns, otherwise
    it goes on to save. *)
Lemma main_unfold (lib : OnnxLib) (check_model : ModelProto -> outcome unit)
    (ser : ModelProto -> list Byte.byte) (m : ModelProto) (w : World) :
  create_simple_weather_model lib = Return m ->
  main lib check_model ser w =
    match check_model m with
    | Return _ =>
        save_and_report ser m
          (put_line MsgValidationPassed (put_line MsgCreating w))
    | Raise e =>
        (Return tt, put_line (MsgValidationFailed e) (put_line MsgCreating w))
    end.
Proof.
  intros Hm. unfold main, mbind, Proc_bind, try_except, lift, print, mret,
    Proc_ret.
  rewrite Hm. destruct (check_model m) as [[]|e]; reflexivity.
Qed.

(** ** Validation of the built model *)

(** The validation step with its shape clause rejects the built model. *)
Lemma validate_rejects_built_model :
  match create_simple_weather_model onnx_1_13 with
  | Return m =>
      validate m = Fail (MatMulMismatch [1; 4] [5; 4])
      /\ validate m <> Ok tt
      /\ raising validate m
         = Raise (ValidationError "incompatible dimensions for MatMul")
  | Raise _ => False
  end.
Proof. vm_compute. repeat split. discriminate. Qed.

(** C2, amended: the built model passes the validation step without its
    shape clause (every referenced name resolves and every operator
    attribute set is complete), so with that checker [main] never takes
    the failure branch and goes on to save. *)
Theorem built_model_passes_default_check (lib : OnnxLib) :
  exists m,
    create_simple_weather_model lib = Return m
    /\ check_names (mp_graph m) = Ok tt
    /\ check_attributes (gp_node (mp_graph m)) = Ok tt
    /\ check_model_default m = Ok tt
    /\ forall (ser : ModelProto -> list Byte.byte) (w : World),
         main lib (raising check_model_default) ser w =
           save_and_report ser m
             (put_line MsgValidationPassed (put_line MsgCreating w)).
Proof.
  destruct (create_simple_weather_model_returns lib) as (m & Hm & _).
  exists m. split; [exact Hm|].
  assert (Hn : check_names (mp_graph m) = Ok tt)
    by (vm_compute in Hm; injection Hm as <-; reflexivity).
  assert (Ha : check_attributes (gp_node (mp_graph m)) = Ok tt)
    by (vm_compute in Hm; injection Hm as <-; reflexivity).
  assert (Hd : check_model_default m = Ok tt)
    by (unfold check_model_default; rewrite Hn; simpl; exact Ha).
  repeat (split; [assumption|]).
  intros ser w. rewrite (main_unfold _ _ _ m) by exact Hm.
  unfold raising. rewrite Hd. reflexivity.
Qed.

(** ** What the file-system calls leave alone *)

Lemma walk_Return f name comps : forall cur p,
  walk f name cur comps = Return p -> p = fold_left enter comps cur.
Proof.
  induction comps as [|c comps IH]; intros cur p H; simpl in *.
  - congruence.
  - destruct (is_dir f cur); [eauto|].
    destruct (is_present f cur); discriminate.
Qed.

Lemma resolve_Return w name p :
  resolve w name = Return p -> p = locate (cwd w) name.
Proof.
  unfold resolve, locate. destruct (name =? "")%string; [discriminate|].
  apply walk_Return.
Qed.

Section only_fs_combinators.
Context {A B : Type}.

Lemma only_fs_ret (a : A) : only_fs (mret a : Proc A).
Proof. intros w r w' H. injection H as _ <-. symmetry. apply set_fs_id. Qed.

Lemma only_fs_raise (e : exn) : only_fs (raise e : Proc A).
Proof. intros w r w' H. injection H as _ <-. symmetry. apply set_fs_id. Qed.

Lemma only_fs_bind (c : Proc A) (k : A -> Proc B) :
  only_fs c -> (forall a, only_fs (k a)) -> only_fs (c ≫= k).
Proof.
  intros Hc Hk w r w' H. unfold mbind, Proc_bind in H.
  destruct (c w) as [[a|e] w1] eqn:Hcw.
  - apply Hc in Hcw. apply Hk in H. rewrite H, Hcw. reflexivity.
  - injection H as _ <-. eauto.
Qed.

Lemma only_fs_try_except (c : Proc A) (handles : exn -> bool)
    (h : exn -> Proc A) :
  only_fs c -> (forall e, only_fs (h e)) -> only_fs (try_except c handles h).
Proof.
  intros Hc Hh w r w' H. unfold try_except in H.
  destruct (c w) as [[a|e] w1] eqn:Hcw.
  - injection H as _ <-. eauto.
  - apply Hc in Hcw. destruct (handles e).
    + apply Hh in H. rewrite H, Hcw. reflexivity.
    + injection H as _ <-. exact Hcw.
Qed.
End only_fs_combinators.

Lemma only_fs_path_exists name : only_fs (os.path_exists name).
Proof.
  intros w r w' H. unfold os.path_exists in H.
  destruct (resolve w name); injection H as _ <-; symmetry; apply set_fs_id.
Qed.

Lemma only_fs_path_isdir name : only_fs (os.path_isdir name).
Proof.
  intros w r w' H. unfold os.path_isdir in H.
  destruct (resolve w name); injection H as _ <-; symmetry; apply set_fs_id.
Qed.

Lemma only_fs_mkdir name : only_fs (os.mkdir name).
Proof.
  intros w r w' H. unfold os.mkdir in H.
  destruct (resolve w name) as [p|e].
  - destruct (is_present (fs w) p); injection H as _ <-;
      [symmetry; apply set_fs_id | reflexivity].
  - injection H as _ <-; symmetry; apply set_fs_id.
Qed.

Lemma only_fs_makedirs_rec exist_ok fuel :
  forall name, only_fs (os.makedirs_rec fuel name exist_ok).
Proof.
  induction fuel as [|fuel IH]; intros name.
  - apply only_fs_raise.
  - cbn [os.makedirs_rec].
    destruct (path.split name) as [h t].
    destruct (if (t =? "")%string then path.split h else (h, t)) as [h' t'].
    apply only_fs_bind; [apply only_fs_path_exists|]. intros b.
    apply only_fs_bind.
    + destruct (negb (String.eqb h' "") && negb (String.eqb t' "") && negb b).
      * apply only_fs_bind.
        -- apply only_fs_try_except; [apply IH|]. intros _. apply only_fs_ret.
        -- intros _. apply only_fs_ret.
      * apply only_fs_ret.
    + intros []; [apply only_fs_ret|].
      apply only_fs_try_except; [apply only_fs_mkdir|]. intros e.
      apply only_fs_bind; [apply only_fs_path_isdir|]. intros isdir.
      destruct (negb exist_ok || negb isdir);
        [apply only_fs_raise | apply only_fs_ret].
Qed.

Lemma save_and_report_inv ser m w w' :
  save_and_report ser m w = (Return tt, w') ->
  fs w' !! locate (cwd w) output_path = Some (File (ser m))
  /\ stdout w' = stdout w ++ report (ser m)
  /\ cwd w' = cwd w.
Proof.
  unfold save_and_report. unfold mbind at 1. unfold Proc_bind.
  destruct (os.makedirs (path.dirname output_path) true w) as [[[]|e] w1] eqn:Hmk;
    [|discriminate].
  apply only_fs_makedirs_rec in Hmk.
  unfold mbind at 1. unfold Proc_bind, save, os.write_file.
  destruct (resolve w1 output_path) as [p|e] eqn:Hr; [|discriminate].
  destruct (is_dir (fs w1) p); [discriminate|].
  unfold mbind at 1. unfold Proc_bind, print.
  unfold mbind at 1. unfold Proc_bind, os.path_getsize.
  set (w3 := put_line _ _).
  destruct (resolve w3 output_path) as [p'|e] eqn:Hr3; [|discriminate].
  apply resolve_Return in Hr, Hr3.
  assert (p' = p) as -> by (rewrite Hr, Hr3; reflexivity).
  assert (Hl : fs w3 !! p = Some (File (ser m))) by apply lookup_insert_eq.
  rewrite Hl.
  unfold mbind, Proc_bind, print. intros H. injection H as <-.
  simpl. rewrite Hmk in *. simpl in *. subst p.
  split; [apply lookup_insert_eq|]. split; [|reflexivity].
  rewrite <- !app_assoc. reflexivity.
Qed.

(** ** Saving from a working directory *)

Lemma is_dir_present f p : is_dir f p = true -> is_present f p = true.
Proof.
  unfold is_dir, is_present. destruct p as [|c p]; [reflexivity|].
  destruct (f !! (c :: p)) as [[]|]; try discriminate.
  intros _. apply bool_decide_eq_true. eauto.
Qed.

Lemma is_dir_lookup f p :
  p <> [] -> is_dir f p = true -> f !! p = Some Dir.
Proof.
  unfold is_dir. destruct p as [|c p]; [congruence|]. intros _.
  destruct (f !! (c :: p)) as [[]|]; congruence.
Qed.

Lemma is_dir_insert_Dir f q p :
  is_dir f p = true -> is_dir (<[q := Dir]> f) p = true.
Proof.
  unfold is_dir. destruct p as [|c p]; [reflexivity|].
  destruct (decide (q = c :: p)) as [->|Hne].
  - rewrite lookup_insert_eq. reflexivity.
  - rewrite lookup_insert_ne by exact Hne. trivial.
Qed.

Lemma is_dir_insert_eq f q : is_dir (<[q := Dir]> f) q = true.
Proof.
  unfold is_dir. destruct q as [|c q]; [reflexivity|].
  rewrite lookup_insert_eq. reflexivity.
Qed.

(** Writing an entry where no directory is keeps every directory. *)
Lemma is_dir_insert_other f q e p :
  is_dir f q = false -> is_dir f p = true -> is_dir (<[q := e]> f) p = true.
Proof.
  intros Hq Hp. destruct (decide (q = p)) as [->|Hne]; [congruence|].
  unfold is_dir in *. destruct p as [|c p]; [reflexivity|].
  rewrite lookup_insert_ne by exact Hne. exact Hp.
Qed.

Lemma is_dir_insert_Dir_false f q p :
  q <> p -> is_dir f p = false -> is_dir (<[q := Dir]> f) p = false.
Proof.
  intros Hne. unfold is_dir. destruct p as [|c p]; [trivial|].
  rewrite lookup_insert_ne by exact Hne. trivial.
Qed.

Lemma models_dir_not_root cur : models_dir cur <> [].
Proof. unfold models_dir. destruct (parent cur); discriminate. Qed.

Lemma model_file_not_models_dir cur : models_dir cur <> model_file cur.
Proof.
  unfold model_file. intros H. apply (f_equal length) in H.
  rewrite length_app in H. simpl in H. lia.
Qed.

Lemma locate_models_dir cur :
  locate cur (path.dirname output_path) = models_dir cur.
Proof. reflexivity. Qed.

Lemma locate_model_file cur : locate cur output_path = model_file cur.
Proof. reflexivity. Qed.

Lemma resolve_parent w :
  is_dir (fs w) (cwd w) = true -> resolve w ".." = Return (parent (cwd w)).
Proof.
  intros Hc. unfold resolve.
  change (path.components "..") with [".."]. simpl. rewrite Hc. reflexivity.
Qed.

Lemma resolve_models w :
  is_dir (fs w) (cwd w) = true ->
  is_dir (fs w) (parent (cwd w)) = true ->
  resolve w "../models" = Return (models_dir (cwd w)).
Proof.
  intros Hc Hp. unfold resolve.
  change (path.components "../models") with [".."; "models"].
  simpl. rewrite Hc.
  change (enter (cwd w) "..") with (parent (cwd w)). rewrite Hp. reflexivity.
Qed.

Lemma resolve_output_path w :
  is_dir (fs w) (cwd w) = true ->
  is_dir (fs w) (parent (cwd w)) = true ->
  is_dir (fs w) (models_dir (cwd w)) = true ->
  resolve w output_path = Return (model_file (cwd w)).
Proof.
  intros Hc Hp Hd. unfold resolve.
  change (path.components output_path)
    with [".."; "models"; "weather-advisor.onnx"].
  simpl. rewrite Hc.
  change (enter (cwd w) "..") with (parent (cwd w)). rewrite Hp.
  change (enter (parent (cwd w)) "models") with (models_dir (cwd w)).
  rewrite Hd. reflexivity.
Qed.

(** [os.makedirs("../models", exist_ok=True)] from an existing working
    directory: an existing directory is reused, a missing one is created,
    anything else in its place is an error. *)
Lemma makedirs_models w :
  is_dir (fs w) (cwd w) = true ->
  is_dir (fs w) (parent (cwd w)) = true ->
  os.makedirs (path.dirname output_path) true w =
    if is_present (fs w) (models_dir (cwd w)) then
      if is_dir (fs w) (models_dir (cwd w)) then (Return tt, w)
      else (Raise (FileExistsError "../models"), w)
    else (Return tt, set_fs (<[models_dir (cwd w) := Dir]> (fs w)) w).
Proof.
  intros Hc Hp.
  change (path.dirname output_path) with "../models".
  unfold os.makedirs. cbn [os.makedirs_rec].
  change (path.split "../models") with ("..", "models").
  cbv beta iota.
  change (String.eqb "models" "") with false.
  cbv iota.
  unfold mbind at 1. unfold Proc_bind.
  unfold os.path_exists at 1.
  rewrite (resolve_parent w Hc), (is_dir_present _ _ Hp).
  change (negb (String.eqb ".." "") && negb (String.eqb "models" "")
          && negb true) with false.
  cbv iota.
  unfold mbind, Proc_bind, mret, Proc_ret, try_except, os.mkdir,
    os.path_isdir, raise.
  rewrite (resolve_models w Hc Hp).
  destruct (is_present (fs w) (models_dir (cwd w))) eqn:HD; simpl.
  - rewrite (resolve_models w Hc Hp).
    destruct (is_dir (fs w) (models_dir (cwd w))); reflexivity.
  - reflexivity.
Qed.

(** The same, when nothing but a directory can be in its place: the
    directory is there afterwards and nothing else changed. *)
Lemma makedirs_models_ok w :
  is_dir (fs w) (cwd w) = true ->
  is_dir (fs w) (parent (cwd w)) = true ->
  is_present (fs w) (models_dir (cwd w)) = false
    \/ is_dir (fs w) (models_dir (cwd w)) = true ->
  os.makedirs (path.dirname output_path) true w =
    (Return tt, set_fs (<[models_dir (cwd w) := Dir]> (fs w)) w).
Proof.
  intros Hc Hp HD. rewrite (makedirs_models w Hc Hp).
  destruct HD as [HD|HD].
  - rewrite HD. reflexivity.
  - rewrite (is_dir_present _ _ HD), HD.
    rewrite insert_id by (apply is_dir_lookup; [apply models_dir_not_root|exact HD]).
    rewrite set_fs_id. reflexivity.
Qed.

Lemma save_and_report_forward ser m w :
  is_dir (fs w) (cwd w) = true ->
  is_dir (fs w) (parent (cwd w)) = true ->
  is_present (fs w) (models_dir (cwd w)) = false
    \/ is_dir (fs w) (models_dir (cwd w)) = true ->
  is_dir (fs w) (model_file (cwd w)) = false ->
  exists w',
    save_and_report ser m w = (Return tt, w')
    /\ fs w' = <[model_file (cwd w) := File (ser m)]>
                 (<[models_dir (cwd w) := Dir]> (fs w))
    /\ stdout w' = stdout w ++ report (ser m).
Proof.
  intros Hc Hp HD HF.
  unfold save_and_report. unfold mbind at 1. unfold Proc_bind.
  rewrite (makedirs_models_ok w Hc Hp HD).
  set (f1 := <[models_dir (cwd w) := Dir]> (fs w)).
  set (w1 := set_fs f1 w).
  assert (Hc1 : is_dir (fs w1) (cwd w1) = true) by (apply is_dir_insert_Dir, Hc).
  assert (Hp1 : is_dir (fs w1) (parent (cwd w1)) = true)
    by (apply is_dir_insert_Dir, Hp).
  assert (Hd1 : is_dir (fs w1) (models_dir (cwd w1)) = true)
    by apply is_dir_insert_eq.
  assert (HF1 : is_dir (fs w1) (model_file (cwd w1)) = false)
    by (apply is_dir_insert_Dir_false;
        [apply model_file_not_models_dir | exact HF]).
  unfold mbind at 1. unfold Proc_bind, save, os.write_file.
  rewrite (resolve_output_path w1 Hc1 Hp1 Hd1), HF1.
  unfold mbind at 1. unfold Proc_bind, print.
  unfold mbind at 1. unfold Proc_bind, os.path_getsize.
  set (w3 := put_line _ _).
  assert (Hr3 : resolve w3 output_path = Return (model_file (cwd w1))).
  { apply (resolve_output_path w3); simpl;
      apply is_dir_insert_other; assumption. }
  rewrite Hr3.
  assert (Hl : fs w3 !! model_file (cwd w1) = Some (File (ser m)))
    by apply lookup_insert_eq.
  rewrite Hl. unfold mbind, Proc_bind, print.
  eexists. split; [reflexivity|]. split; [reflexivity|].
  simpl. rewrite <- !app_assoc. reflexivity.
Qed.

(** ** Where the model is saved *)

(** Started from a home directory, the script saves next to that directory
    and leaves the tree of the script untouched: the path is not taken
    relative to the script's location. *)
Lemma home_run_saves_outside_script_tree :
  (main onnx_1_13 (raising check_model_default) producer_bytes home_world).1
    = Return tt
  /\ locate (script_dir home_world) output_path
     = ["repo"; "apps"; "backend"; "models"; "weather-advisor.onnx"]
  /\ fs (main onnx_1_13 (raising check_model_default) producer_bytes
           home_world).2
       !! locate (script_dir home_world) output_path = None
  /\ fs (main onnx_1_13 (raising check_model_default) producer_bytes
           home_world).2
       !! ["home"; "models"; "weather-advisor.onnx"]
     = Some (File (list_byte_of_string "vaero-weather-ai")).
Proof. vm_compute. repeat split. Qed.

(** C4, amended: after a passed validation [main] writes the serialized
    model to ../models/weather-advisor.onnx taken relative to the working
    directory of the process; the models directory is created before the
    write when it is missing and reused when it is there. *)
Theorem saved_relative_to_working_directory
    (lib : OnnxLib) (check_model : ModelProto -> outcome unit)
    (ser : ModelProto -> list Byte.byte) (m : ModelProto) (w : World) :
  create_simple_weather_model lib = Return m ->
  check_model m = Return tt ->
  is_dir (fs w) (cwd w) = true ->
  is_dir (fs w) (parent (cwd w)) = true ->
  is_present (fs w) (models_dir (cwd w)) = false
    \/ is_dir (fs w) (models_dir (cwd w)) = true ->
  is_dir (fs w) (model_file (cwd w)) = false ->
  exists w',
    main lib check_model ser w = (Return tt, w')
    /\ model_file (cwd w) = locate (cwd w) output_path
    /\ fs w' !! model_file (cwd w) = Some (File (ser m))
    /\ fs w' !! models_dir (cwd w) = Some Dir
    /\ fs w' = <[model_file (cwd w) := File (ser m)]>
                 (<[models_dir (cwd w) := Dir]> (fs w))
    /\ (is_dir (fs w) (models_dir (cwd w)) = true ->
        fs w' = <[model_file (cwd w) := File (ser m)]> (fs w))
    /\ exists w1,
         os.makedirs (path.dirname output_path) true
           (put_line MsgValidationPassed (put_line MsgCreating w))
           = (Return tt, w1)
         /\ is_dir (fs w1) (models_dir (cwd w)) = true
         /\ save ser m output_path w1
            = (Return tt,
               set_fs (<[model_file (cwd w) := File (ser m)]> (fs w1)) w1).
Proof.
  intros Hm Hchk Hc Hp HD HF.
  set (w0 := put_line MsgValidationPassed (put_line MsgCreating w)).
  destruct (save_and_report_forward ser m w0 Hc Hp HD HF) as (w' & Hrun & Hfs & _).
  exists w'. split.
  { rewrite (main_unfold _ _ _ m) by exact Hm. rewrite Hchk. exact Hrun. }
  split; [reflexivity|].
  split; [rewrite Hfs; apply lookup_insert_eq|].
  split.
  { rewrite Hfs, lookup_insert_ne by (apply not_eq_sym, model_file_not_models_dir).
    apply lookup_insert_eq. }
  split; [exact Hfs|].
  split.
  { intros Hd. rewrite Hfs. f_equal. apply insert_id.
    apply is_dir_lookup; [apply models_dir_not_root | exact Hd]. }
  eexists. split; [apply (makedirs_models_ok w0 Hc Hp HD)|].
  split; [apply is_dir_insert_eq|].
  unfold save, os.write_file.
  rewrite (resolve_output_path (set_fs _ w0)); simpl.
  - rewrite is_dir_insert_Dir_false;
      [reflexivity | apply model_file_not_models_dir | exact HF].
  - apply is_dir_insert_Dir, Hc.
  - apply is_dir_insert_Dir, Hp.
  - apply is_dir_insert_eq.
Qed.

Lemma saved_relative_to_working_directory_witness :
  (exists w',
     main onnx_1_13 (raising check_model_default) producer_bytes home_world
       = (Return tt, w')
     /\ fs home_world !! ["home"; "models"] = None
     /\ fs w' !! ["home"; "models"] = Some Dir
     /\ fs w' !! ["home"; "models"; "weather-advisor.onnx"]
        = Some (File (list_byte_of_string "vaero-weather-ai")))
  /\ (exists w',
        main onnx_1_13 (raising check_model_default) producer_bytes
          scripts_world = (Return tt, w')
        /\ fs scripts_world !! ["repo"; "apps"; "backend"; "models"] = Some Dir
        /\ fs w' = <[ ["repo"; "apps"; "backend"; "models";
                       "weather-advisor.onnx"]
                      := File (list_byte_of_string "vaero-weather-ai") ]>
                     (fs scripts_world)).
Proof.
  destruct (create_simple_weather_model_returns onnx_1_13) as (m & Hm & _).
  assert (Hchk : raising check_model_default m = Return tt)
    by (vm_compute in Hm; injection Hm as <-; reflexivity).
  assert (Hser : producer_bytes m = list_byte_of_string "vaero-weather-ai")
    by (vm_compute in Hm; injection Hm as <-; reflexivity).
  split.
  - destruct (saved_relative_to_working_directory
                onnx_1_13 (raising check_model_default) producer_bytes m
                home_world Hm Hchk)
      as (w' & Hrun & _ & Hfile & Hdir & _);
      [reflexivity | reflexivity | left; reflexivity | reflexivity |].
    exists w'. split; [exact Hrun|]. split; [reflexivity|].
    split; [exact Hdir|]. rewrite <- Hser. exact Hfile.
  - destruct (saved_relative_to_working_directory
                onnx_1_13 (raising check_model_default) producer_bytes m
                scripts_world Hm Hchk)
      as (w' & Hrun & _ & _ & _ & _ & Hreuse & _);
      [reflexivity | reflexivity | right; reflexivity | reflexivity |].
    exists w'. split; [exact Hrun|]. split; [reflexivity|].
    rewrite <- Hser. apply Hreuse. reflexivity.
Defined.

(** ** Failure modes *)

Lemma save_and_report_makedirs_raises ser m w e w1 :
  os.makedirs (path.dirname output_path) true w = (Raise e, w1) ->
  save_and_report ser m w = (Raise e, w1).
Proof.
  intros H. unfold save_and_report. unfold mbind at 1. unfold Proc_bind.
  rewrite H. reflexivity.
Qed.

Lemma save_and_report_save_raises ser m w w1 e w2 :
  os.makedirs (path.dirname output_path) true w = (Return tt, w1) ->
  save ser m output_path w1 = (Raise e, w2) ->
  save_and_report ser m w = (Raise e, w2).
Proof.
  intros H1 H2. unfold save_and_report. unfold mbind at 1. unfold Proc_bind.
  rewrite H1. unfold mbind at 1. unfold Proc_bind. rewrite H2. reflexivity.
Qed.

(** C5: when the checker raises, [main] prints the failure and returns
    before any directory is created or file written; an exception of the
    directory creation or of the write is not handled and leaves [main]
    as it was raised. *)
Theorem validation_is_the_only_handled_failure
    (lib : OnnxLib) (check_model : ModelProto -> outcome unit)
    (ser : ModelProto -> list Byte.byte) (m : ModelProto) (w : World) :
  create_simple_weather_model lib = Return m ->
  (forall e,
     check_model m = Raise e ->
     main lib check_model ser w
       = (Return tt, put_line (MsgValidationFailed e) (put_line MsgCreating w))
     /\ fs (main lib check_model ser w).2 = fs w)
  /\ (check_model m = Return tt ->
      (forall e w1,
         os.makedirs (path.dirname output_path) true
           (put_line MsgValidationPassed (put_line MsgCreating w))
           = (Raise e, w1) ->
         main lib check_model ser w = (Raise e, w1))
      /\ (forall e w1 w2,
            os.makedirs (path.dirname output_path) true
              (put_line MsgValidationPassed (put_line MsgCreating w))
              = (Return tt, w1) ->
            save ser m output_path w1 = (Raise e, w2) ->
            main lib check_model ser w = (Raise e, w2))).
Proof.
  intros Hm. rewrite (main_unfold _ _ _ m) by exact Hm. split.
  - intros e He. rewrite He. split; reflexivity.
  - intros Hok. rewrite Hok. split.
    + intros e w1. apply save_and_report_makedirs_raises.
    + intros e w1 w2. apply save_and_report_save_raises.
Qed.

Lemma validation_is_the_only_handled_failure_witness :
  (main onnx_1_13 (raising validate) producer_bytes home_world
     = (Return tt,
        put_line (MsgValidationFailed
                    (ValidationError "incompatible dimensions for MatMul"))
          (put_line MsgCreating home_world))
   /\ fs (main onnx_1_13 (raising validate) producer_bytes home_world).2
      = fs home_world)
  /\ (exists w',
        main onnx_1_13 (raising check_model_default) producer_bytes
          blocked_world = (Raise (FileExistsError "../models"), w')
        /\ fs w' = fs blocked_world)
  /\ (exists w',
        main onnx_1_13 (raising check_model_default) producer_bytes
          occupied_world
          = (Raise (IsADirectoryError "../models/weather-advisor.onnx"), w')
        /\ fs w' = fs occupied_world).
Proof.
  destruct (create_simple_weather_model_returns onnx_1_13) as (m & Hm & _).
  assert (Hbad : raising validate m
                 = Raise (ValidationError "incompatible dimensions for MatMul"))
    by (vm_compute in Hm; injection Hm as <-; reflexivity).
  assert (Hok : raising check_model_default m = Return tt)
    by (vm_compute in Hm; injection Hm as <-; reflexivity).
  split; [|split].
  - apply (validation_is_the_only_handled_failure
             onnx_1_13 (raising validate) producer_bytes m home_world Hm).
    exact Hbad.
  - eexists. split.
    + apply (validation_is_the_only_handled_failure
               onnx_1_13 (raising check_model_default) producer_bytes m
               blocked_world Hm).
      * exact Hok.
      * vm_compute. reflexivity.
    + reflexivity.
  - eexists. split.
    + apply (validation_is_the_only_handled_failure
               onnx_1_13 (raising check_model_default) producer_bytes m
               occupied_world Hm)
        with (w1 := put_line MsgValidationPassed
                      (put_line MsgCreating occupied_world)).
      * exact Hok.
      * vm_compute. reflexivity.
      * vm_compute in Hm. injection Hm as <-. vm_compute. reflexivity.
    + reflexivity.
Defined.

(** ** Two runs worked out *)

Lemma home_run :
  main onnx_1_13 (raising check_model_default) producer_bytes home_world
    = (Return tt, home_world_saved).
Proof. vm_compute. reflexivity. Qed.

Lemma scripts_run :
  main onnx_1_13 (raising check_model_default) producer_bytes scripts_world
    = (Return tt, scripts_world_saved).
Proof. vm_compute. reflexivity. Qed.

(** ** Determinism *)

(** A run of [main] that returns either stopped at the validation, having
    printed the failure and nothing else, or saved the serialized model
    where the path leads from the working directory and printed the
    report. *)
Lemma main_returns_inv
    (lib : OnnxLib) (check_model : ModelProto -> outcome unit)
    (ser : ModelProto -> list Byte.byte) (w w' : World) :
  main lib check_model ser w = (Return tt, w') ->
  exists m,
    create_simple_weather_model lib = Return m
    /\ ((exists e,
           check_model m = Raise e
           /\ fs w' = fs w
           /\ stdout w' = stdout w ++ [MsgCreating; MsgValidationFailed e])
        \/ (check_model m = Return tt
            /\ fs w' !! locate (cwd w) output_path = Some (File (ser m))
            /\ stdout w' = stdout w
                 ++ [MsgCreating; MsgValidationPassed] ++ report (ser m))).
Proof.
  destruct (create_simple_weather_model_returns lib) as (m & Hm & _).
  rewrite (main_unfold _ _ _ m) by exact Hm.
  intros H. exists m. split; [exact Hm|].
  destruct (check_model m) as [[]|e].
  - right. split; [reflexivity|].
    apply save_and_report_inv in H as (Hf & Hs & _).
    split; [exact Hf|].
    rewrite Hs. simpl. rewrite <- !app_assoc. reflexivity.
  - left. exists e. injection H as <-.
    split; [reflexivity|]. split; [reflexivity|].
    simpl. rewrite <- app_assoc. reflexivity.
Qed.

(** C6: two runs of [main], from whatever working directories, file trees,
    clocks and environments, that both return went the same way, decided
    by the model the builder returns and nothing else.  Either the
    validation of that model failed, and both printed the same failure
    and wrote nothing; or it passed, and both left the same bytes, the
    serialization of that model, in the file they saved and printed the
    same lines. *)
Theorem runs_are_byte_identical
    (lib : OnnxLib) (check_model : ModelProto -> outcome unit)
    (ser : ModelProto -> list Byte.byte) (w1 w2 w1' w2' : World) :
  main lib check_model ser w1 = (Return tt, w1') ->
  main lib check_model ser w2 = (Return tt, w2') ->
  exists m,
    create_simple_weather_model lib = Return m
    /\ ((exists e,
           check_model m = Raise e
           /\ fs w1' = fs w1 /\ fs w2' = fs w2
           /\ stdout w1' = stdout w1 ++ [MsgCreating; MsgValidationFailed e]
           /\ stdout w2' = stdout w2 ++ [MsgCreating; MsgValidationFailed e])
        \/ (check_model m = Return tt
            /\ fs w1' !! locate (cwd w1) output_path = Some (File (ser m))
            /\ fs w2' !! locate (cwd w2) output_path = Some (File (ser m))
            /\ stdout w1' = stdout w1
                 ++ [MsgCreating; MsgValidationPassed] ++ report (ser m)
            /\ stdout w2' = stdout w2
                 ++ [MsgCreating; MsgValidationPassed] ++ report (ser m))).
Proof.
  intros H1 H2.
  apply main_returns_inv in H1 as (m & Hm & H1).
  apply main_returns_inv in H2 as (m' & Hm' & H2).
  assert (m' = m) as -> by congruence.
  exists m. split; [exact Hm|].
  destruct H1 as [(e1 & Hc1 & Hf1 & Hs1) | (Hc1 & Hf1 & Hs1)];
    destruct H2 as [(e2 & Hc2 & Hf2 & Hs2) | (Hc2 & Hf2 & Hs2)];
    try congruence.
  - assert (e2 = e1) as -> by congruence.
    left. exists e1. repeat split; assumption.
  - right. repeat split; assumption.
Qed.

Lemma runs_are_byte_identical_witness :
  cwd home_world <> cwd scripts_world
  /\ clock home_world <> clock scripts_world
  /\ fs home_world <> fs scripts_world
  /\ main onnx_1_13 (raising check_model_default) producer_bytes home_world
     = (Return tt, home_world_saved)
  /\ main onnx_1_13 (raising check_model_default) producer_bytes scripts_world
     = (Return tt, scripts_world_saved)
  /\ fs home_world_saved !! ["home"; "models"; "weather-advisor.onnx"]
     = Some (File (list_byte_of_string "vaero-weather-ai"))
  /\ fs scripts_world_saved
       !! ["repo"; "apps"; "backend"; "models"; "weather-advisor.onnx"]
     = Some (File (list_byte_of_string "vaero-weather-ai"))
  /\ exists out,
       stdout home_world_saved = stdout home_world ++ out
       /\ stdout scripts_world_saved = stdout scripts_world ++ out.
Proof.
  split; [discriminate|]. split; [discriminate|].
  split.
  { intros H.
    apply (f_equal (fun f => f !! ["repo"; "apps"; "backend"; "models"])) in H.
    vm_compute in H. discriminate. }
  split; [exact home_run|]. split; [exact scripts_run|].
  destruct (runs_are_byte_identical
              onnx_1_13 (raising check_model_default) producer_bytes
              home_world scripts_world home_world_saved scripts_world_saved
              home_run scripts_run)
    as (m & Hm & [(e & Hc & _) | (_ & Hf1 & Hf2 & Hs1 & Hs2)]).
  - exfalso. vm_compute in Hm. injection Hm as <-.
    vm_compute in Hc. discriminate.
  - assert (Hser : producer_bytes m = list_byte_of_string "vaero-weather-ai")
      by (vm_compute in Hm; injection Hm as <-; reflexivity).
    rewrite Hser in Hf1, Hf2.
    split; [exact Hf1|]. split; [exact Hf2|].
    eexists. split; [exact Hs1 | exact Hs2].
Defined.

(** * Further properties of main *)

(** ** What the directory creation can change *)

Section respects_combinators.
Context (R : World -> World -> Prop).
Hypothesis R_refl : forall w, R w w.
Hypothesis R_trans : forall w1 w2 w3, R w1 w2 -> R w2 w3 -> R w1 w3.
Context {A B : Type}.

Lemma respects_ret (a : A) : respects R (mret a : Proc A).
Proof. intros w r w' H. injection H as _ <-. apply R_refl. Qed.

Lemma respects_raise (e : exn) : respects R (raise e : Proc A).
Proof. intros w r w' H. injection H as _ <-. apply R_refl. Qed.

Lemma respects_bind (c : Proc A) (k : A -> Proc B) :
  respects R c -> (forall a, respects R (k a)) -> respects R (c ≫= k).
Proof.
  intros Hc Hk w r w' H. unfold mbind, Proc_bind in H.
  destruct (c w) as [[a|e] w1] eqn:Hcw.
  - eapply R_trans; [eapply Hc, Hcw | eapply Hk, H].
  - injection H as _ <-. eapply Hc, Hcw.
Qed.

Lemma respects_try_except (c : Proc A) (handles : exn -> bool)
    (h : exn -> Proc A) :
  respects R c -> (forall e, respects R (h e)) ->
  respects R (try_except c handles h).
Proof.
  intros Hc Hh w r w' H. unfold try_except in H.
  destruct (c w) as [[a|e] w1] eqn:Hcw.
  - injection H as _ <-. eapply Hc, Hcw.
  - destruct (handles e).
    + eapply R_trans; [eapply Hc, Hcw | eapply Hh, H].
    + injection H as _ <-. eapply Hc, Hcw.
Qed.
End respects_combinators.

Lemma gained_dirs_refl w : gained_dirs w w.
Proof. split; [reflexivity | auto]. Qed.

Lemma gained_dirs_trans w1 w2 w3 :
  gained_dirs w1 w2 -> gained_dirs w2 w3 -> gained_dirs w1 w3.
Proof.
  intros [S1 N1] [S2 N2]. split; [etrans; eassumption|].
  intros p e H. destruct (N2 p e H) as [H'|]; auto.
Qed.

Lemma is_present_false f p :
  is_present f p = false -> f !! p = None.
Proof.
  unfold is_present. destruct p as [|c p]; [discriminate|].
  intros H. apply bool_decide_eq_false in H.
  destruct (f !! (c :: p)) eqn:E; [|reflexivity].
  exfalso. apply H. eauto.
Qed.

Lemma respects_path_exists name : respects gained_dirs (os.path_exists name).
Proof.
  intros w r w' H. unfold os.path_exists in H.
  destruct (resolve w name); injection H as _ <-; apply gained_dirs_refl.
Qed.

Lemma respects_path_isdir name : respects gained_dirs (os.path_isdir name).
Proof.
  intros w r w' H. unfold os.path_isdir in H.
  destruct (resolve w name); injection H as _ <-; apply gained_dirs_refl.
Qed.

Lemma respects_mkdir name : respects gained_dirs (os.mkdir name).
Proof.
  intros w r w' H. unfold os.mkdir in H.
  destruct (resolve w name) as [p|e].
  - destruct (is_present (fs w) p) eqn:Hp; injection H as _ <-;
      [apply gained_dirs_refl|].
    apply is_present_false in Hp. split; simpl.
    + apply insert_subseteq. exact Hp.
    + intros q e Hq. destruct (decide (p = q)) as [->|Hne].
      * rewrite lookup_insert_eq in Hq. right. congruence.
      * rewrite lookup_insert_ne in Hq by exact Hne. auto.
  - injection H as _ <-. apply gained_dirs_refl.
Qed.

(** [os.makedirs] only ever adds directories to the file tree. *)
Lemma respects_makedirs_rec exist_ok fuel :
  forall name, respects gained_dirs (os.makedirs_rec fuel name exist_ok).
Proof.
  pose proof gained_dirs_refl as Rr. pose proof gained_dirs_trans as Rt.
  induction fuel as [|fuel IH]; intros name.
  - apply respects_raise; assumption.
  - cbn [os.makedirs_rec].
    destruct (path.split name) as [h t].
    destruct (if String.eqb t "" then path.split h else (h, t)) as [h' t'].
    apply respects_bind; [assumption | apply respects_path_exists|]. intros b.
    apply respects_bind; [assumption | |].
    + destruct (negb (String.eqb h' "") && negb (String.eqb t' "") && negb b).
      * apply respects_bind; [assumption | |].
        -- apply respects_try_except; [assumption | apply IH|].
           intros _. apply respects_ret; assumption.
        -- intros _. apply respects_ret; assumption.
      * apply respects_ret; assumption.
    + intros []; [apply respects_ret; assumption|].
      apply respects_try_except; [assumption | apply respects_mkdir|]. intros e.
      apply respects_bind; [assumption | apply respects_path_isdir|].
      intros isdir.
      destruct (negb exist_ok || negb isdir);
        [apply respects_raise | apply respects_ret]; assumption.
Qed.

Lemma walk_insert f name e p comps : forall cur,
  walk f name cur comps = Return p ->
  is_dir f p = false ->
  walk (<[p := e]> f) name cur comps = Return p.
Proof.
  induction comps as [|c comps IH]; intros cur H Hp; simpl in *.
  - exact H.
  - destruct (is_dir f cur) eqn:Hc.
    + rewrite (is_dir_insert_other f p e cur Hp Hc). apply IH; assumption.
    + destruct (is_present f cur); discriminate.
Qed.

Lemma resolve_insert w w3 name e p :
  resolve w name = Return p ->
  is_dir (fs w) p = false ->
  cwd w3 = cwd w ->
  fs w3 = <[p := e]> (fs w) ->
  resolve w3 name = Return p.
Proof.
  unfold resolve. intros H Hp Hc Hf.
  destruct (String.eqb name ""); [discriminate|].
  rewrite Hc, Hf. apply walk_insert; assumption.
Qed.

(** What a run of the saving part comes to: the directory creation raised,
    or the write raised, or the file was written and the report printed. *)
Lemma save_and_report_cases ser m w r w' :
  save_and_report ser m w = (r, w') ->
  (exists e, r = Raise e
             /\ os.makedirs (path.dirname output_path) true w = (Raise e, w'))
  \/ (exists e w1,
        r = Raise e
        /\ os.makedirs (path.dirname output_path) true w = (Return tt, w1)
        /\ save ser m output_path w1 = (Raise e, w'))
  \/ (exists w1,
        r = Return tt
        /\ os.makedirs (path.dirname output_path) true w = (Return tt, w1)
        /\ is_dir (fs w1) (locate (cwd w) output_path) = false
        /\ fs w' = <[locate (cwd w) output_path := File (ser m)]> (fs w1)
        /\ stdout w' = stdout w ++ report (ser m)).
Proof.
  unfold save_and_report. unfold mbind at 1. unfold Proc_bind.
  destruct (os.makedirs (path.dirname output_path) true w) as [[[]|e] w1] eqn:Hmk.
  2:{ intros H. injection H as <- <-. left. eauto. }
  pose proof (only_fs_makedirs_rec _ _ _ _ _ _ Hmk) as Hw1.
  assert (Hcwd : cwd w1 = cwd w) by (rewrite Hw1; reflexivity).
  assert (Hout : stdout w1 = stdout w) by (rewrite Hw1; reflexivity).
  clear Hw1.
  unfold mbind at 1. unfold Proc_bind.
  destruct (save ser m output_path w1) as [[[]|e] w2] eqn:Hsv.
  2:{ intros H. injection H as <- <-. right. left. eauto. }
  revert Hsv. unfold save, os.write_file.
  destruct (resolve w1 output_path) as [p|e] eqn:Hr; [|discriminate].
  destruct (is_dir (fs w1) p) eqn:Hd; [discriminate|].
  intros Hsv. injection Hsv as <-.
  unfold mbind at 1. unfold Proc_bind, print.
  unfold mbind at 1. unfold Proc_bind, os.path_getsize.
  set (w3 := put_line _ _).
  assert (Hr3 : resolve w3 output_path = Return p).
  { apply (resolve_insert w1 w3 output_path (File (ser m)) p);
      [assumption | assumption | reflexivity | reflexivity]. }
  rewrite Hr3.
  assert (Hl : fs w3 !! p = Some (File (ser m))) by apply lookup_insert_eq.
  rewrite Hl. unfold mbind, Proc_bind, print. intros H. injection H as <- <-.
  right. right. exists w1.
  apply resolve_Return in Hr. rewrite Hcwd in Hr. rewrite <- Hr.
  split; [reflexivity|]. split; [reflexivity|]. split; [exact Hd|].
  split; [reflexivity|].
  unfold report, w3. cbn [stdout put_line set_fs]. rewrite Hout.
  rewrite <- !app_assoc. reflexivity.
Qed.

(** ** What a run of main comes to *)

(** Every run of [main] ends in one of three ways: it returned at the
    failed validation; it raised after the passed validation, out of the
    directory creation or the write (which is taken as one step, see
    [os.write_file]); or it saved the file and printed the report. *)
Lemma main_cases
    (lib : OnnxLib) (check_model : ModelProto -> outcome unit)
    (ser : ModelProto -> list Byte.byte) (w : World) (r : outcome unit)
    (w' : World) :
  main lib check_model ser w = (r, w') ->
  exists m,
    create_simple_weather_model lib = Return m
    /\ ((exists e,
           check_model m = Raise e /\ r = Return tt
           /\ fs w' = fs w
           /\ stdout w' = stdout w ++ [MsgCreating; MsgValidationFailed e])
        \/ (exists e,
              check_model m = Return tt /\ r = Raise e
              /\ gained_dirs w w'
              /\ stdout w' = stdout w ++ [MsgCreating; MsgValidationPassed])
        \/ (exists w1,
              check_model m = Return tt /\ r = Return tt
              /\ gained_dirs w w1
              /\ is_dir (fs w1) (locate (cwd w) output_path) = false
              /\ fs w' = <[locate (cwd w) output_path := File (ser m)]> (fs w1)
              /\ stdout w' = stdout w
                   ++ [MsgCreating; MsgValidationPassed] ++ report (ser m))).
Proof.
  destruct (create_simple_weather_model_returns lib) as (m & Hm & _).
  rewrite (main_unfold _ _ _ m) by exact Hm.
  intros H. exists m. split; [exact Hm|].
  destruct (check_model m) as [[]|e].
  2:{ left. exists e. injection H as <- <-.
      split; [reflexivity|]. split; [reflexivity|]. split; [reflexivity|].
      simpl. rewrite <- app_assoc. reflexivity. }
  right.
  set (w0 := put_line MsgValidationPassed (put_line MsgCreating w)) in *.
  assert (Hout0 : stdout w0 = stdout w ++ [MsgCreating; MsgValidationPassed])
    by (simpl; rewrite <- app_assoc; reflexivity).
  apply save_and_report_cases in H
    as [(e & -> & Hmk) | [(e & w1 & -> & Hmk & Hsv) | (w1 & -> & Hmk & Hd & Hf & Hs)]].
  - left. exists e. split; [reflexivity|]. split; [reflexivity|].
    pose proof (respects_makedirs_rec _ _ _ _ _ _ Hmk) as Hg.
    pose proof (only_fs_makedirs_rec _ _ _ _ _ _ Hmk) as Hw.
    split; [exact Hg|]. rewrite Hw. exact Hout0.
  - left. exists e. split; [reflexivity|]. split; [reflexivity|].
    pose proof (respects_makedirs_rec _ _ _ _ _ _ Hmk) as Hg.
    pose proof (only_fs_makedirs_rec _ _ _ _ _ _ Hmk) as Hw.
    revert Hsv. unfold save, os.write_file.
    destruct (resolve w1 output_path) as [p|e'].
    + destruct (is_dir (fs w1) p); [|discriminate].
      intros Hsv. injection Hsv as _ <-.
      split; [exact Hg|]. rewrite Hw. exact Hout0.
    + intros Hsv. injection Hsv as _ <-.
      split; [exact Hg|]. rewrite Hw. exact Hout0.
  - right. exists w1. split; [reflexivity|]. split; [reflexivity|].
    pose proof (respects_makedirs_rec _ _ _ _ _ _ Hmk) as Hg.
    split; [exact Hg|]. split; [exact Hd|]. split; [exact Hf|].
    rewrite Hs, Hout0, <- app_assoc. reflexivity.
Qed.

(** ** The report *)

(** X1: a run of [main] that returns either stopped at the validation,
    leaving the file tree as it was, or printed as the size of the model
    the length of the very file it left at the output path. *)
Theorem reported_size_is_file_size
    (lib : OnnxLib) (check_model : ModelProto -> outcome unit)
    (ser : ModelProto -> list Byte.byte) (w w' : World) :
  main lib check_model ser w = (Return tt, w') ->
  (exists e,
     fs w' = fs w
     /\ stdout w' = stdout w ++ [MsgCreating; MsgValidationFailed e])
  \/ (exists bytes,
        fs w' !! locate (cwd w) output_path = Some (File bytes)
        /\ stdout w' = stdout w
             ++ [MsgCreating; MsgValidationPassed; MsgSaved output_path;
                 MsgSize (length bytes); MsgInputShape; MsgOutputShape]).
Proof.
  intros H. apply main_cases in H as (m & _ & H).
  destruct H as [(e & _ & _ & Hf & Hs) | [(e & _ & He & _) | (w1 & _ & _ & _ & _ & Hf & Hs)]].
  - left. eauto.
  - discriminate.
  - right. exists (ser m). split; [|exact Hs].
    rewrite Hf. apply lookup_insert_eq.
Qed.

Lemma reported_size_is_file_size_witness :
  fs home_world_saved !! ["home"; "models"; "weather-advisor.onnx"]
    = Some (File (list_byte_of_string "vaero-weather-ai"))
  /\ stdout home_world_saved
     = [MsgCreating; MsgValidationPassed; MsgSaved output_path;
        MsgSize 16; MsgInputShape; MsgOutputShape].
Proof.
  destruct (reported_size_is_file_size
              onnx_1_13 (raising check_model_default) producer_bytes
              home_world home_world_saved home_run)
    as [(e & _ & Hs) | (bytes & Hf & Hs)].
  - discriminate.
  - split; reflexivity.
Defined.

(** ** What main leaves alone *)

(** X3: however a run of [main] ends, every directory is still a
    directory, every file other than the one at the output path has the
    content it had, and whatever the file tree gained is a directory or
    the file at the output path. *)
Theorem main_never_deletes
    (lib : OnnxLib) (check_model : ModelProto -> outcome unit)
    (ser : ModelProto -> list Byte.byte) (w w' : World) (r : outcome unit) :
  main lib check_model ser w = (r, w') ->
  (forall p, is_dir (fs w) p = true -> is_dir (fs w') p = true)
  /\ (forall p c,
        fs w !! p = Some (File c) -> p <> locate (cwd w) output_path ->
        fs w' !! p = Some (File c))
  /\ (forall p e,
        fs w' !! p = Some e ->
        fs w !! p = Some e \/ e = Dir \/ p = locate (cwd w) output_path).
Proof.
  intros H. apply main_cases in H as (m & _ & H).
  assert (Hdir : forall w1, gained_dirs w w1 ->
            forall p, is_dir (fs w) p = true -> is_dir (fs w1) p = true).
  { intros w1 [Hsub _] p. unfold is_dir. destruct p as [|c p]; [trivial|].
    destruct (fs w !! (c :: p)) as [[]|] eqn:E; try discriminate.
    rewrite (lookup_weaken _ _ _ _ E Hsub). trivial. }
  destruct H as [(e & _ & _ & Hf & _) | [(e & _ & _ & Hg & _) | (w1 & _ & _ & Hg & Hd & Hf & _)]].
  - rewrite Hf. repeat split; auto.
  - split; [apply Hdir, Hg|]. destruct Hg as [Hsub Hnew]. split.
    + intros p c Hp _. eapply lookup_weaken; eassumption.
    + intros p e' Hp. destruct (Hnew p e' Hp); auto.
  - rewrite Hf. split; [|split].
    + intros p Hp. apply is_dir_insert_other; [exact Hd | apply (Hdir w1 Hg p Hp)].
    + intros p c Hp Hne. rewrite lookup_insert_ne by (apply not_eq_sym, Hne).
      destruct Hg as [Hsub _]. eapply lookup_weaken; eassumption.
    + intros p e Hp.
      destruct (decide (locate (cwd w) output_path = p)) as [<-|Hne]; [auto|].
      rewrite lookup_insert_ne in Hp by exact Hne.
      destruct Hg as [_ Hnew]. destruct (Hnew p e Hp); auto.
Qed.

Lemma main_never_deletes_witness :
  is_dir (fs home_world_saved) ["repo"; "apps"; "backend"; "scripts"] = true
  /\ forall p e,
       fs home_world_saved !! p = Some e ->
       fs home_world !! p = Some e \/ e = Dir
       \/ p = ["home"; "models"; "weather-advisor.onnx"].
Proof.
  destruct (main_never_deletes
              onnx_1_13 (raising check_model_default) producer_bytes
              home_world home_world_saved _ home_run)
    as (Hdir & _ & Hnew).
  split; [apply Hdir; reflexivity | exact Hnew].
Defined.

(** ** Running main again *)

(** X4: after a run that saved the model, a second run from the same
    working directory saves again, prints the same lines and leaves the
    file tree exactly as the first run left it. *)
Theorem rerun_changes_nothing
    (lib : OnnxLib) (check_model : ModelProto -> outcome unit)
    (ser : ModelProto -> list Byte.byte) (m : ModelProto) (w : World) :
  create_simple_weather_model lib = Return m ->
  check_model m = Return tt ->
  is_dir (fs w) (cwd w) = true ->
  is_dir (fs w) (parent (cwd w)) = true ->
  is_present (fs w) (models_dir (cwd w)) = false
    \/ is_dir (fs w) (models_dir (cwd w)) = true ->
  is_dir (fs w) (model_file (cwd w)) = false ->
  exists w' w'' out,
    main lib check_model ser w = (Return tt, w')
    /\ main lib check_model ser w' = (Return tt, w'')
    /\ fs w'' = fs w'
    /\ stdout w' = stdout w ++ out
    /\ stdout w'' = stdout w' ++ out.
Proof.
  intros Hm Hchk Hc Hp HD HF.
  set (pre := fun w => put_line MsgValidationPassed (put_line MsgCreating w)).
  destruct (save_and_report_forward ser m (pre w) Hc Hp HD HF)
    as (w' & Hrun & Hfs & Hout).
  pose proof (save_and_report_inv ser m (pre w) w' Hrun) as (_ & _ & Hcwd).
  change (cwd (pre w)) with (cwd w) in *.
  change (fs (pre w)) with (fs w) in *.
  assert (Hmodels : fs w' !! models_dir (cwd w) = Some Dir).
  { rewrite Hfs, lookup_insert_ne by (apply not_eq_sym, model_file_not_models_dir).
    apply lookup_insert_eq. }
  assert (Hfile : fs w' !! model_file (cwd w) = Some (File (ser m)))
    by (rewrite Hfs; apply lookup_insert_eq).
  assert (HF0 : is_dir (<[models_dir (cwd w) := Dir]> (fs w)) (model_file (cwd w))
                = false)
    by (apply is_dir_insert_Dir_false;
        [apply model_file_not_models_dir | exact HF]).
  assert (Hc' : is_dir (fs w') (cwd w') = true).
  { rewrite Hcwd, Hfs. apply is_dir_insert_other; [exact HF0|].
    apply is_dir_insert_Dir, Hc. }
  assert (Hp' : is_dir (fs w') (parent (cwd w')) = true).
  { rewrite Hcwd, Hfs. apply is_dir_insert_other; [exact HF0|].
    apply is_dir_insert_Dir, Hp. }
  assert (HD' : is_dir (fs w') (models_dir (cwd w')) = true).
  { rewrite Hcwd. unfold is_dir.
    destruct (models_dir (cwd w)) eqn:E; [reflexivity|]. rewrite Hmodels.
    reflexivity. }
  assert (HF' : is_dir (fs w') (model_file (cwd w')) = false).
  { rewrite Hcwd. unfold is_dir.
    destruct (model_file (cwd w)) eqn:E; [|rewrite Hfile; reflexivity].
    exfalso. apply (f_equal length) in E. unfold model_file in E.
    rewrite length_app in E. simpl in E. lia. }
  destruct (save_and_report_forward ser m (pre w') Hc' Hp' (or_intror HD') HF')
    as (w'' & Hrun' & Hfs' & Hout').
  change (cwd (pre w')) with (cwd w') in *.
  change (fs (pre w')) with (fs w') in *.
  exists w', w'', ([MsgCreating; MsgValidationPassed] ++ report (ser m)).
  split.
  { rewrite (main_unfold _ _ _ m) by exact Hm. rewrite Hchk. exact Hrun. }
  split.
  { rewrite (main_unfold _ _ _ m) by exact Hm. rewrite Hchk. exact Hrun'. }
  split.
  { rewrite Hfs', Hcwd.
    rewrite (insert_id (fs w') _ _ Hmodels). apply insert_id, Hfile. }
  split.
  - rewrite Hout. simpl. rewrite <- !app_assoc. reflexivity.
  - rewrite Hout'. simpl. rewrite <- !app_assoc. reflexivity.
Qed.

Lemma rerun_changes_nothing_witness :
  exists w'' out,
    main onnx_1_13 (raising check_model_default) producer_bytes
      home_world_saved = (Return tt, w'')
    /\ fs w'' = fs home_world_saved
    /\ stdout home_world_saved = stdout home_world ++ out
    /\ stdout w'' = stdout home_world_saved ++ out.
Proof.
  destruct (create_simple_weather_model_returns onnx_1_13) as (m & Hm & _).
  assert (Hchk : raising check_model_default m = Return tt)
    by (vm_compute in Hm; injection Hm as <-; reflexivity).
  destruct (rerun_changes_nothing
              onnx_1_13 (raising check_model_default) producer_bytes m
              home_world Hm Hchk)
    as (w' & w'' & out & H1 & H2 & Hf & Ho1 & Ho2);
    [reflexivity | reflexivity | left; reflexivity | reflexivity |].
  rewrite home_run in H1. injection H1 as <-.
  exists w'', out. repeat split; assumption.
Defined.

(** ** Obstacles on the way to the output path *)

(** X5: when something that is not a directory sits at ../models, [main]
    raises [FileExistsError] out of the directory creation, after the
    first two lines, and the file tree is as it was. *)
Theorem file_in_place_of_models_dir
    (lib : OnnxLib) (check_model : ModelProto -> outcome unit)
    (ser : ModelProto -> list Byte.byte) (m : ModelProto) (w : World) :
  create_simple_weather_model lib = Return m ->
  check_model m = Return tt ->
  is_dir (fs w) (cwd w) = true ->
  is_dir (fs w) (parent (cwd w)) = true ->
  is_present (fs w) (models_dir (cwd w)) = true ->
  is_dir (fs w) (models_dir (cwd w)) = false ->
  main lib check_model ser w
    = (Raise (FileExistsError "../models"),
       put_line MsgValidationPassed (put_line MsgCreating w)).
Proof.
  intros Hm Hchk Hc Hp Hpres Hnd.
  rewrite (main_unfold _ _ _ m) by exact Hm. rewrite Hchk.
  apply save_and_report_makedirs_raises.
  rewrite makedirs_models by assumption.
  cbn [fs cwd put_line]. rewrite Hpres, Hnd. reflexivity.
Qed.

Lemma file_in_place_of_models_dir_witness :
  fs blocked_world !! ["home"; "models"] = Some (File [])
  /\ main onnx_1_13 (raising check_model_default) producer_bytes blocked_world
     = (Raise (FileExistsError "../models"),
        put_line MsgValidationPassed (put_line MsgCreating blocked_world)).
Proof.
  destruct (create_simple_weather_model_returns onnx_1_13) as (m & Hm & _).
  assert (Hchk : raising check_model_default m = Return tt)
    by (vm_compute in Hm; injection Hm as <-; reflexivity).
  split; [reflexivity|].
  apply (file_in_place_of_models_dir
           onnx_1_13 (raising check_model_default) producer_bytes m
           blocked_world Hm Hchk); reflexivity.
Defined.

(** X6: when a directory sits at the output path itself, [main] raises
    [IsADirectoryError] out of the write, after the first two lines, and
    the file tree is as it was. *)
Theorem directory_in_place_of_model_file
    (lib : OnnxLib) (check_model : ModelProto -> outcome unit)
    (ser : ModelProto -> list Byte.byte) (m : ModelProto) (w : World) :
  create_simple_weather_model lib = Return m ->
  check_model m = Return tt ->
  is_dir (fs w) (cwd w) = true ->
  is_dir (fs w) (parent (cwd w)) = true ->
  is_dir (fs w) (models_dir (cwd w)) = true ->
  is_dir (fs w) (model_file (cwd w)) = true ->
  main lib check_model ser w
    = (Raise (IsADirectoryError output_path),
       put_line MsgValidationPassed (put_line MsgCreating w)).
Proof.
  intros Hm Hchk Hc Hp HD HF.
  rewrite (main_unfold _ _ _ m) by exact Hm. rewrite Hchk.
  set (w0 := put_line MsgValidationPassed (put_line MsgCreating w)).
  apply (save_and_report_save_raises ser m w0 w0).
  - rewrite makedirs_models by assumption.
    cbn [fs cwd put_line w0]. rewrite (is_dir_present _ _ HD), HD. reflexivity.
  - unfold save, os.write_file.
    rewrite (resolve_output_path w0) by assumption.
    cbn [fs cwd put_line w0]. rewrite HF. reflexivity.
Qed.

Lemma directory_in_place_of_model_file_witness :
  fs occupied_world !! ["home"; "models"; "weather-advisor.onnx"] = Some Dir
  /\ main onnx_1_13 (raising check_model_default) producer_bytes
       occupied_world
     = (Raise (IsADirectoryError "../models/weather-advisor.onnx"),
        put_line MsgValidationPassed (put_line MsgCreating occupied_world)).
Proof.
  destruct (create_simple_weather_model_returns onnx_1_13) as (m & Hm & _).
  assert (Hchk : raising check_model_default m = Return tt)
    by (vm_compute in Hm; injection Hm as <-; reflexivity).
  split; [reflexivity|].
  apply (directory_in_place_of_model_file
           onnx_1_13 (raising check_model_default) producer_bytes m
           occupied_world Hm Hchk); reflexivity.
Defined.

(** ** The envelope and the node sequence *)

(** X7: whatever onnx package is installed, the builder returns a model
    that names the producer "vaero-weather-ai", imports the default
    operator set at version 13 and nothing else, and carries the IR
    version of the package; models built under two packages have the same
    graph, producer and operator set and differ in the IR version only. *)
Theorem envelope_is_opset_13 (lib lib' : OnnxLib) :
  exists m m',
    create_simple_weather_model lib = Return m
    /\ create_simple_weather_model lib' = Return m'
    /\ mp_producer_name m = "vaero-weather-ai"
    /\ mp_opset_import m = [ {| os_domain := ""; os_version := 13 |} ]
    /\ mp_ir_version m = IR_VERSION lib
    /\ mp_graph m' = mp_graph m
    /\ mp_producer_name m' = mp_producer_name m
    /\ mp_opset_import m' = mp_opset_import m.
Proof. eexists _, _. repeat split; reflexivity. Qed.

(** X8: the graph is named "weather_advisor" and consists of the nodes
    MatMul, Add and Softmax in that order; each node has one output, which
    the next node takes as its first operand, and the output of the last
    is the declared output of the graph; no tensor name has two producers;
    Softmax carries the one attribute axis = 1 and the others none. *)
Theorem nodes_form_a_chain (lib : OnnxLib) :
  exists m,
    create_simple_weather_model lib = Return m
    /\ gp_name (mp_graph m) = "weather_advisor"
    /\ map nd_op_type (gp_node (mp_graph m)) = ["MatMul"; "Add"; "Softmax"]
    /\ chained (gp_node (mp_graph m))
    /\ (last (gp_node (mp_graph m)) ≫= fun n => head (nd_output n))
       = head (map vi_name (gp_output (mp_graph m)))
    /\ single_assignment (mp_graph m)
    /\ map nd_attribute (gp_node (mp_graph m))
       = [ []; []; [ {| at_name := "axis"; at_value := AttrInt 1 |} ] ].
Proof.
  eexists. split; [reflexivity|].
  split; [reflexivity|]. split; [reflexivity|].
  split.
  { intros i n n' Hn Hn'.
    destruct i as [|[|[|i]]]; simpl in Hn, Hn'; try discriminate;
      injection Hn as <-; injection Hn' as <-; eexists; split; reflexivity. }
  split; [reflexivity|].
  split; [|reflexivity].
  unfold single_assignment. apply (bool_decide_unpack (NoDup _)).
  vm_compute. exact I.
Qed.
